(** * bbbb: btrfs block-device backup over SSH

    A shallow embedding of [bbbb.py].  Python [str] values are modelled as
    [string] (characters are code points below 256), Python [int] as [Z],
    tuples of strings as records, and the calls that leave the process
    ([subprocess.run], [ssh.exec_command], [print], file writes) as events
    appended to a trace, with the answers of the outside world supplied by
    an oracle.  Exceptions are values of [exn] carried by [result]. *)

From Stdlib Require Import ZArith NArith List String Ascii Bool Lia.
From Stdlib Require Import DecimalString DecimalZ DecimalPos.
Import ListNotations.

Local Open Scope string_scope.
Local Open Scope Z_scope.

(* ================================================================= *)
(** ** Python string built-ins used by the script *)

Module Py.

(** [str.isspace] on one character, for code points below 256:
    TAB, LF, VT, FF, CR, FS, GS, RS, US, SPACE, NEL and NBSP. *)
Definition is_space (c : ascii) : bool :=
  let n := N_of_ascii c in
  ((9 <=? n) && (n <=? 13) || (28 <=? n) && (n <=? 32)
   || (n =? 133) || (n =? 160))%N.

Definition is_empty (s : string) : bool :=
  match s with EmptyString => true | String _ _ => false end.

(** [s.lstrip(chars)], with the stripped characters given as a predicate. *)
Fixpoint lstrip_by (p : ascii -> bool) (s : string) : string :=
  match s with
  | EmptyString => EmptyString
  | String c r => if p c then lstrip_by p r else s
  end.

(** [s.rstrip(chars)]: every trailing character satisfying [p] goes. *)
Fixpoint rstrip_by (p : ascii -> bool) (s : string) : string :=
  match s with
  | EmptyString => EmptyString
  | String c r =>
      let r' := rstrip_by p r in
      if p c && is_empty r' then EmptyString else String c r'
  end.

(** [s.strip()] *)
Definition strip (s : string) : string :=
  lstrip_by is_space (rstrip_by is_space s).

(** [s.rstrip('B')] *)
Definition rstrip_B (s : string) : string :=
  rstrip_by (fun c => Ascii.eqb c "B") s.

(** [s.split(sep)] for a one-character separator: never an empty list. *)
Fixpoint split (sep : ascii) (s : string) : list string :=
  match s with
  | EmptyString => [EmptyString]
  | String c r =>
      if Ascii.eqb c sep then EmptyString :: split sep r
      else match split sep r with
           | w :: ws => String c w :: ws
           | [] => [String c EmptyString]
           end
  end.

(** [s.split()]: the maximal runs of non-whitespace characters. *)
Fixpoint split_ws (s : string) : list string :=
  match s with
  | EmptyString => []
  | String c r =>
      if is_space c then split_ws r
      else match r with
           | EmptyString => [String c EmptyString]
           | String c' _ =>
               if is_space c' then String c EmptyString :: split_ws r
               else match split_ws r with
                    | w :: ws => String c w :: ws
                    | [] => [String c EmptyString]
                    end
           end
  end.

(** [s.startswith(p)] *)
Definition startswith (s p : string) : bool := String.prefix p s.

(** [a > b] on [str]: code-point lexicographic order. *)
Definition gt (a b : string) : bool := String.ltb b a.

Definition is_digit (c : ascii) : bool :=
  let n := N_of_ascii c in ((48 <=? n) && (n <=? 57))%N.

(** The digit part of an integer literal: [digit (["_"] digit)*].  Returns
    the digits with the separating underscores removed. *)
Fixpoint digitpart (after_digit : bool) (s : string) : option string :=
  match s with
  | EmptyString => if after_digit then Some EmptyString else None
  | String c r =>
      if is_digit c then option_map (String c) (digitpart true r)
      else if Ascii.eqb c "_" then
             if after_digit then digitpart false r else None
      else None
  end.

(** The whitespace that [int()] skips around a literal: TAB, LF, VT, FF,
    CR and SPACE, and of the code points from 128 on NEL and NBSP, which
    [int] turns into blanks first.  The separators FS, GS, RS and US are
    whitespace for [str.strip] but not for [int]. *)
Definition is_int_space (c : ascii) : bool :=
  let n := N_of_ascii c in
  ((9 <=? n) && (n <=? 13) || (n =? 32) || (n =? 133) || (n =? 160))%N.

Definition int_strip (s : string) : string :=
  lstrip_by is_int_space (rstrip_by is_int_space s).

(** [int(s)] in base 10: surrounding whitespace is ignored, one sign is
    allowed, then a digit part.  [None] stands for the [ValueError] that
    [int] raises.  Integers are unbounded, as in the language; the limit
    on the number of digits that an interpreter can be configured with is
    not modelled. *)
Definition int (s : string) : option Z :=
  let s := int_strip s in
  let '(neg, body) :=
    match s with
    | String "-" r => (true, r)
    | String "+" r => (false, r)
    | _ => (false, s)
    end in
  match digitpart false body with
  | Some ds =>
      match NilZero.uint_of_string ds with
      | Some u => Some (if neg then - Z.of_uint u else Z.of_uint u)
      | None => None
      end
  | None => None
  end.

(** [str(n)] for an [int], and ["{}".format(n)]. *)
Definition str (n : Z) : string := NilZero.string_of_int (Z.to_int n).

Fixpoint contains (c : ascii) (s : string) : bool :=
  match s with
  | EmptyString => false
  | String a r => Ascii.eqb a c || contains c r
  end.

Definition hex_digit (n : N) : ascii :=
  match String.get (N.to_nat n) "0123456789abcdef" with
  | Some d => d
  | None => "0"%char
  end.

(** One character inside [repr(s)], for the quote character [q]. *)
Definition repr_char (q c : ascii) : string :=
  let n := N_of_ascii c in
  if Ascii.eqb c "\" then String "\" (String "\" EmptyString)
  else if Ascii.eqb c q then String "\" (String q EmptyString)
  else if (n =? 9)%N then String "\" "t"
  else if (n =? 10)%N then String "\" "n"
  else if (n =? 13)%N then String "\" "r"
  else if ((n <? 32) || (n =? 127) || (128 <=? n) && (n <=? 160)
           || (n =? 173))%N
       then String "\" (String "x"
              (String (hex_digit (n / 16)) (String (hex_digit (n mod 16))
                 EmptyString)))
  else String c EmptyString.

Fixpoint repr_body (q : ascii) (s : string) : string :=
  match s with
  | EmptyString => EmptyString
  | String c r => repr_char q c ++ repr_body q r
  end.

(** [repr(s)] for a [str]: single quotes, unless the text has a single
    quote and no double quote; backslash, the quote and the characters that
    are not printable are escaped. *)
Definition repr (s : string) : string :=
  let q := if contains "'" s && negb (contains "034" s)
           then "034"%char else "'"%char in
  String q (repr_body q s ++ String q EmptyString).

End Py.

(* ================================================================= *)
(** ** Exceptions and results *)

(** What [subprocess.run] is called with: a shell line ([shell=True]) or an
    argument vector. *)
Inductive command : Type :=
| Shell (line : string)
| Argv (args : list string).

Inductive exn : Type :=
| ValueError (msg : string)
| RuntimeError (msg : string)
| IndexError (msg : string)
| OSError (msg : string)
| CalledProcessError (returncode : Z) (cmd : command)
| SystemExit (code : Z).

Inductive result (A : Type) : Type :=
| Return (a : A)
| Raise (e : exn).
Arguments Return {A} a.
Arguments Raise {A} e.

(** The message of the [ValueError] raised by [int(s)]: the literal is
    shown as [repr(s)], cut after 200 characters. *)
Definition invalid_literal (s : string) : string :=
  "invalid literal for int() with base 10: " ++ substring 0 200 (Py.repr s).

(** [int(s)] as a computation that may raise. *)
Definition to_int (s : string) : result Z :=
  match Py.int s with
  | Some z => Return z
  | None => Raise (ValueError (invalid_literal s))
  end.

(* ================================================================= *)
(** ** Partition-table parser *)

(** The tuple [(part_num, size, start, fs_type)] appended by the parser;
    positions 0 to 3 of the tuple in this order. *)
Record partition : Type := Partition {
  part_num : string;
  size : string;
  start : string;
  fs_type : string
}.

(** One iteration of the [for line in lines[2:]] loop: [None] is the
    [continue] of a line with fewer than five fields. *)
Definition parse_line (line : string) : result (option partition) :=
  let fields := Py.split ":" line in
  if (List.length fields <? 5)%nat then Return None
  else
    let part_num := nth 0 fields "" in
    let start := Py.rstrip_B (nth 1 fields "") in
    let end_ := Py.rstrip_B (nth 2 fields "") in
    match to_int end_ with
    | Raise e => Raise e
    | Return e =>
        match to_int start with
        | Raise x => Raise x
        | Return s =>
            let size := Py.str (e - s) in
            let fs_type := nth 4 fields "" in
            Return (Some (Partition part_num size start fs_type))
        end
    end.

(** The loop, with [partitions] as the list built so far. *)
Fixpoint parse_lines (lines : list string) (partitions : list partition)
  : result (list partition) :=
  match lines with
  | [] => Return partitions
  | line :: rest =>
      match parse_line line with
      | Raise e => Raise e
      | Return None => parse_lines rest partitions
      | Return (Some p) => parse_lines rest (partitions ++ [p])
      end
  end.

Definition invalid_parted_output : exn := ValueError "Invalid parted output".

Definition parse_parted_output (output : string)
  : result (string * list partition) :=
  let lines := Py.split "010" (Py.strip output) in
  if (List.length lines <? 3)%nat then Raise invalid_parted_output
  else
    let disk_info := Py.split ":" (nth 1 lines "") in
    match nth_error disk_info 1 with
    | None => Raise (IndexError "list index out of range")
    | Some f =>
        let disk_size := Py.rstrip_B f in
        match parse_lines (skipn 2 lines) [] with
        | Raise e => Raise e
        | Return partitions => Return (disk_size, partitions)
        end
    end.

(* ================================================================= *)
(** ** The outside world: events, oracle and the monad of the script *)

(** A [subprocess.CompletedProcess]. *)
Record completed : Type := Completed {
  returncode : Z;
  stdout : string;
  stderr : string
}.

(** What [ssh.exec_command] hands back.  [chunks] are the successive
    non-empty results of [stdout.channel.recv(1024)]; after the last one
    [recv] returns the empty bytes.  The exit status of the remote command
    is available on the channel but the script never asks for it. *)
Record channel : Type := Channel {
  chunks : list string;
  errors : string;
  exit_status : Z
}.

(** [stdout.read().decode()]: the bytes are taken for the characters they
    decode to.  Output that is not valid UTF-8, on which [decode] raises,
    is not modelled. *)
Definition read_stdout (ch : channel) : string := String.concat "" (chunks ch).

(** The calls of the script that reach outside the process. *)
Inductive event : Type :=
| Connect (hostname : string)               (* ssh.connect(hostname, ...) *)
| Run (cmd : command)                       (* subprocess.run(cmd, ...) *)
| Exec (line : string)                      (* ssh.exec_command(line) *)
| Print (text : string)                     (* print(text) *)
| Create (path : string)                    (* open(path, 'wb') *)
| Truncate (path : string) (length : Z)     (* f.truncate(length) *)
| Write (path : string) (pos : Z) (data : string) (* f.write(data); f.flush() *)
| WriteText (path : string) (text : string) (* open(path, 'w'); f.write(text) *)
| Close.                                    (* ssh.close() *)

Definition trace : Type := list event.

(** The answers of the outside world.  They may depend on everything the
    script did before, so the same command can succeed once and fail
    later.  Executables named in an argument vector are assumed installed
    and local file operations are assumed to succeed. *)
Record world : Type := World {
  run_result : trace -> command -> completed;
  exec_result : trace -> string -> channel;
  peername : string;                 (* ssh.get_transport().getpeername()[0] *)
  connect_error : option string      (* message of the SSHException, if any *)
}.

Definition M (A : Type) : Type := world -> trace -> result A * trace.

Definition ret {A} (a : A) : M A := fun _ t => (Return a, t).

Definition raise {A} (e : exn) : M A := fun _ t => (Raise e, t).

Definition bind {A B} (m : M A) (k : A -> M B) : M B :=
  fun w t =>
    match m w t with
    | (Return a, t') => k a w t'
    | (Raise e, t') => (Raise e, t')
    end.

Declare Scope py_scope.
Delimit Scope py_scope with py.
Notation "x <- m ;; k" := (bind m (fun x => k))
  (at level 100, m at next level, right associativity) : py_scope.
Notation "' p <- m ;; k" := (bind m (fun x => let 'p := x in k))
  (at level 100, p pattern, m at next level, right associativity) : py_scope.
Notation "m ;;; k" := (bind m (fun _ => k))
  (at level 100, right associativity) : py_scope.
Local Open Scope py_scope.

Definition lift {A} (r : result A) : M A := fun _ t => (r, t).

Definition emit (e : event) : M unit := fun _ t => (Return tt, (t ++ [e])%list).

(** [subprocess.run(cmd, check=check, ...)] *)
Definition subprocess_run (cmd : command) (check : bool) : M completed :=
  fun w t =>
    let r := run_result w t cmd in
    if check && negb (returncode r =? 0)
    then (Raise (CalledProcessError (returncode r) cmd), (t ++ [Run cmd])%list)
    else (Return r, (t ++ [Run cmd])%list).

(** [ssh.exec_command(line)] *)
Definition exec_command (line : string) : M channel :=
  fun w t => (Return (exec_result w t line), (t ++ [Exec line])%list).

Definition getpeername : M string := fun w t => (Return (peername w), t).

(** [try: body finally: final] *)
Definition try_finally {A} (body : M A) (final : M unit) : M A :=
  fun w t =>
    match body w t with
    | (r, t') =>
        match final w t' with
        | (Return _, t'') => (r, t'')
        | (Raise e, t'') => (Raise e, t'')
        end
    end.

(** [except Exception] does not catch [SystemExit]. *)
Definition is_Exception (e : exn) : bool :=
  match e with SystemExit _ => false | _ => true end.

(** [try: body except Exception as e: handler(e)] *)
Definition try_except {A} (body : M A) (handler : exn -> M A) : M A :=
  fun w t =>
    match body w t with
    | (Raise e, t') => if is_Exception e then handler e w t' else (Raise e, t')
    | r => r
    end.

(** [str(e)] for the exceptions of the script.  For a command that was
    killed by a signal (a status below zero) Python names the signal
    instead of the status; that text is not modelled. *)
Definition exn_str (e : exn) : string :=
  match e with
  | ValueError m | RuntimeError m | IndexError m | OSError m => m
  | CalledProcessError rc (Shell line) =>
      "Command '" ++ line ++ "' returned non-zero exit status "
        ++ Py.str rc ++ "."
  | CalledProcessError rc (Argv args) =>
      "Command '[" ++ String.concat ", " (map Py.repr args)
        ++ "]' returned non-zero exit status " ++ Py.str rc ++ "."
  | SystemExit c => Py.str c
  end.

(* ================================================================= *)
(** ** Probes and device paths *)

Definition parted_line (device : string) : string :=
  "parted --machine " ++ device ++ " unit B print".

Definition get_partitions_ssh (device : string) : M (string * list partition) :=
  ch <- exec_command (parted_line device) ;;
  lift (parse_parted_output (read_stdout ch)).

Definition parted_argv (device : string) : command :=
  Argv ["parted"; "--machine"; device; "unit"; "B"; "print"].

Definition get_partitions_local (device : string)
  : M (string * list partition) :=
  r <- subprocess_run (parted_argv device) false ;;
  if negb (returncode r =? 0)
  then raise (RuntimeError ("Failed to run parted: " ++ stderr r))
  else lift (parse_parted_output (stdout r)).

(** [part_num] is the text that [format] puts in the second slot. *)
Definition get_partition_device (device part_num : string) : string :=
  if Py.startswith device "/dev/mmcblk" || Py.startswith device "/dev/nvme"
  then device ++ "p" ++ part_num
  else device ++ part_num.

(** The [for ... break] search for the first btrfs partition. *)
Fixpoint first_btrfs (partitions : list partition) : option partition :=
  match partitions with
  | [] => None
  | part :: rest =>
      if (fs_type part =? "btrfs")%string then Some part else first_btrfs rest
  end.

Definition get_btrfs_partition_offset (partitions : list partition)
  : result Z :=
  match first_btrfs partitions with
  | None => Raise (ValueError "No btrfs partition found on the device.")
  | Some btrfs_partition => to_int (start btrfs_partition)
  end.

(* ================================================================= *)
(** ** Image initializer *)

Definition loop_device : string := "/dev/loop0".

Definition losetup_bind (output_file : string) : command :=
  Shell ("losetup " ++ loop_device ++ " --partscan " ++ output_file).

Definition losetup_detach : command :=
  Shell ("losetup --detach " ++ loop_device).

Definition mkfs_btrfs (uuid : string) : command :=
  Shell ("mkfs.btrfs --uuid " ++ uuid ++ " " ++ loop_device ++ "p2").

Definition blkid_line (device : string) : string :=
  "blkid -o value -s UUID " ++ get_partition_device device (Py.str 2).

(** The command of the raw copy: whole blocks of 1024 bytes. *)
Definition copy_command (device : string) (btrfs_start : Z) : string :=
  "dd if=" ++ device ++ " bs=1K count=" ++ Py.str (btrfs_start / 1024).

(** The [while True: data = recv(1024) ...] loop; [pos] is the position of
    the file object, which starts at 0 and advances with every write. *)
Fixpoint recv_loop (output_file : string) (pending : list string) (pos : Z)
  : M unit :=
  match pending with
  | [] => ret tt
  | data :: rest =>
      if Py.is_empty data then ret tt
      else
        emit (Write output_file pos data) ;;;
        recv_loop output_file rest (pos + Z.of_nat (String.length data))
  end.

(** [f.truncate(length)] refuses a negative length.  A length of 2^63 or
    more, which does not fit the system call, is not modelled. *)
Definition truncate (path : string) (length : Z) : M unit :=
  if length <? 0 then raise (OSError "[Errno 22] Invalid argument")
  else emit (Truncate path length).

(** The last three statements of [create_initial_image]. *)
Definition make_filesystem (output_file uuid : string) : M unit :=
  subprocess_run (losetup_bind output_file) true ;;;
  subprocess_run (mkfs_btrfs uuid) true ;;;
  subprocess_run losetup_detach true ;;;
  ret tt.

Definition create_initial_image (device output_file : string) : M unit :=
  '(disk_size, partitions) <- get_partitions_ssh device ;;
  match partitions with
  | [] => raise (ValueError "No partitions found on the device.")
  | _ :: _ =>
      ch <- exec_command (blkid_line device) ;;
      let uuid := Py.strip (read_stdout ch) in
      if Py.is_empty uuid
      then raise (ValueError "Failed to get UUID of the btrfs partition.")
      else
        let first_partition := get_partition_device device (Py.str 1) in
        exec_command ("mount -o remount,ro " ++ first_partition) ;;;
        emit (Create output_file) ;;;
        length <- lift (to_int disk_size) ;;
        truncate output_file length ;;;
        btrfs_start <- lift (get_btrfs_partition_offset partitions) ;;
        ch <- exec_command (copy_command device btrfs_start) ;;
        recv_loop output_file (chunks ch) 0 ;;;
        make_filesystem output_file uuid
  end.

(* ================================================================= *)
(** ** Snapshot selector *)

(** The name listed on one line of [btrfs subvolume list]: the ninth
    whitespace-separated field, if the line has that many. *)
Definition listed_name (line : string) : option string :=
  let fields := Py.split_ws line in
  if (List.length fields <? 9)%nat then None else Some (nth 8 fields "").

(** [not newest_snapshot]: true for [None] and for the empty string. *)
Definition falsy (newest_snapshot : option string) : bool :=
  match newest_snapshot with
  | None => true
  | Some s => Py.is_empty s
  end.

(** One iteration of the [for line in lines] loop of the rotation. *)
Definition select_step (subvolume : string) (newest_snapshot : option string)
  (line : string) : option string :=
  match listed_name line with
  | None => newest_snapshot
  | Some name =>
      if negb (Py.startswith name (subvolume ++ ".")) then newest_snapshot
      else if falsy newest_snapshot
                || match newest_snapshot with
                   | Some cur => Py.gt name cur
                   | None => false
                   end
           then Some name
           else newest_snapshot
  end.

Definition no_snapshots : exn := ValueError "No snapshots found.".

(** The loop and the test after it. *)
Definition select_newest (subvolume : string) (lines : list string)
  : result string :=
  let newest_snapshot := fold_left (select_step subvolume) lines None in
  if falsy newest_snapshot then Raise no_snapshots
  else match newest_snapshot with
       | Some name => Return name
       | None => Raise no_snapshots
       end.

(* ================================================================= *)
(** ** Backup session *)

Definition mount_point : string := "/mnt".
Definition config_file : string := "/tmp/btrbk.conf".
Definition nl : string := String "010" EmptyString.

Definition local_mount : command :=
  Shell ("mount " ++ loop_device ++ "p2 -o subvolid=5 " ++ mount_point).

Definition remote_mount_line (device : string) : string :=
  "mount " ++ get_partition_device device (Py.str 2)
    ++ " -o subvolid=5 " ++ mount_point.

Definition umount_line : string := "umount " ++ mount_point.

Definition btrbk : command :=
  Argv ["btrbk"; "--config"; config_file; "--format=raw"; "run"].

Definition btrbk_config (peer subvolume : string) : string :=
  nl ++ "volume " ++ peer ++ ":/mnt" ++ nl
     ++ "  target " ++ mount_point ++ nl
     ++ "  subvolume " ++ subvolume ++ nl.

Definition subvolume_delete (subvolume : string) : command :=
  Shell ("btrfs subvolume delete " ++ mount_point ++ "/" ++ subvolume).

Definition subvolume_list : command :=
  Shell ("btrfs subvolume list " ++ mount_point).

Definition subvolume_snapshot (newest_snapshot subvolume : string) : command :=
  Shell ("btrfs subvolume snapshot " ++ mount_point ++ "/" ++ newest_snapshot
           ++ " " ++ mount_point ++ "/" ++ subvolume).

Definition subvolume_set_default (subvolume : string) : command :=
  Shell ("btrfs subvolume set-default " ++ mount_point ++ "/" ++ subvolume).

(** Everything of [run_backup] before the [try]: the local probe, the loop
    bind, both mounts and the configuration file. *)
Definition run_backup_setup (device output_file subvolume : string) : M unit :=
  get_partitions_local output_file ;;;
  subprocess_run (losetup_bind output_file) true ;;;
  subprocess_run local_mount true ;;;
  ch <- exec_command (remote_mount_line device) ;;
  emit (Print (errors ch)) ;;;
  peer <- getpeername ;;
  emit (WriteText config_file (btrbk_config peer subvolume)).

(** The body of the [try]: the sync engine, then the rotation. *)
Definition run_backup_try (subvolume : string) : M unit :=
  subprocess_run btrbk true ;;;
  subprocess_run (subvolume_delete subvolume) false ;;;
  r <- subprocess_run subvolume_list false ;;
  if negb (returncode r =? 0)
  then raise (RuntimeError ("Failed to list btrfs subvolumes: " ++ stderr r))
  else
    let lines := Py.split "010" (Py.strip (stdout r)) in
    newest_snapshot <- lift (select_newest subvolume lines) ;;
    subprocess_run (subvolume_snapshot newest_snapshot subvolume) true ;;;
    subprocess_run (subvolume_set_default subvolume) true ;;;
    ret tt.

(** The [finally] block. *)
Definition run_backup_finally : M unit :=
  subprocess_run (Shell umount_line) true ;;;
  subprocess_run losetup_detach true ;;;
  exec_command umount_line ;;;
  ret tt.

Definition run_backup (device output_file subvolume : string) : M unit :=
  run_backup_setup device output_file subvolume ;;;
  try_finally (run_backup_try subvolume) run_backup_finally.

(* ================================================================= *)
(** ** Entry point *)

Definition stat_command (output : string) : command :=
  Shell ("stat -c %s " ++ output).

Definition size_mismatch_message (local_size : Z) (remote_size : string)
  : string :=
  "Output file size (" ++ Py.str local_size
    ++ ") does not match remote device size (" ++ remote_size
    ++ "). Aborting.".

(** [ssh.connect] with its [except paramiko.SSHException].  Only that
    exception is modelled; an error of another class (a socket or name
    resolution error) is not caught by [main] and is outside this model. *)
Definition connect (hostname : string) : M unit :=
  emit (Connect hostname) ;;;
  fun w t =>
    match connect_error w with
    | Some msg =>
        (emit (Print ("SSH connection failed: " ++ msg)) ;;;
         raise (SystemExit 1)) w t
    | None => (Return tt, t)
    end.

(** The body of the [try] of [main]. *)
Definition check_or_create (device output : string) : M unit :=
  r <- subprocess_run (stat_command output) false ;;
  if negb (returncode r =? 0)
  then
    emit (Print "Creating initial image...") ;;;
    create_initial_image device output
  else
    local_size <- lift (to_int (Py.strip (stdout r))) ;;
    '(remote_size, _) <- get_partitions_ssh device ;;
    remote <- lift (to_int remote_size) ;;
    if negb (local_size =? remote)
    then
      emit (Print (size_mismatch_message local_size remote_size)) ;;;
      raise (SystemExit 1)
    else ret tt.

(** [main] from the connection on.  [hostname], [device] and [output]
    are the arguments as [parser.parse_args()] returned them; a usage
    error or [-h] ends the program inside [parse_args], before anything
    modelled here. *)
Definition main (hostname device output : string) : M unit :=
  connect hostname ;;;
  try_except (check_or_create device output)
    (fun e =>
       emit (Print ("Error checking or creating output file: " ++ exn_str e)) ;;;
       raise (SystemExit 1)) ;;;
  run_backup device output "@" ;;;
  emit Close.

(* ================================================================= *)
(** ** Reading a trace *)

(** The bytes that the script wrote into [path] with [f.write], in the
    order of the writes. *)
Fixpoint written_to (path : string) (t : trace) : string :=
  match t with
  | [] => EmptyString
  | Write p _ data :: rest =>
      if (p =? path)%string then data ++ written_to path rest
      else written_to path rest
  | _ :: rest => written_to path rest
  end.

Definition command_eqb (a b : command) : bool :=
  match a, b with
  | Shell x, Shell y => (x =? y)%string
  | Argv x, Argv y => if list_eq_dec string_dec x y then true else false
  | _, _ => false
  end.

Definition event_eqb (a b : event) : bool :=
  match a, b with
  | Run x, Run y => command_eqb x y
  | Exec x, Exec y => (x =? y)%string
  | _, _ => false
  end.

(** Does the trace contain this [Run] or [Exec] event? *)
Definition occurs (e : event) (t : trace) : bool := existsb (event_eqb e) t.

(* ================================================================= *)
(** ** Properties of listings, in the words of the specification *)

Definition lines_of (output : string) : list string :=
  Py.split "010" (Py.strip output).

(** A data line has at least five colon-separated fields. *)
Definition data_line (line : string) : bool :=
  (5 <=? List.length (Py.split ":" line))%nat.

(** Start and end offset of a line, after the trailing unit is stripped. *)
Definition offsets (line : string) : option (Z * Z) :=
  let fields := Py.split ":" line in
  match Py.int (Py.rstrip_B (nth 1 fields "")),
        Py.int (Py.rstrip_B (nth 2 fields "")) with
  | Some s, Some e => Some (s, e)
  | _, _ => None
  end.

Definition has_offsets (line : string) : bool :=
  match offsets line with Some _ => true | None => false end.

(** The disk line carries a size field. *)
Definition disk_line_ok (output : string) : bool :=
  (2 <=? List.length (Py.split ":" (nth 1 (lines_of output) "")))%nat.

(** A well-formed machine listing: header, disk line with a size field,
    and decimal offsets on every data line. *)
Definition well_formed (output : string) : bool :=
  (3 <=? List.length (lines_of output))%nat
  && disk_line_ok output
  && forallb (fun l => negb (data_line l) || has_offsets l)
       (skipn 2 (lines_of output)).

(** The names listed by the lines that carry one. *)
Definition listed_names (lines : list string) : list string :=
  flat_map (fun l => match listed_name l with
                     | Some n => [n]
                     | None => []
                     end) lines.

(** The names the selector chooses from. *)
Definition candidates (subvolume : string) (lines : list string)
  : list string :=
  filter (fun n => Py.startswith n (subvolume ++ ".")) (listed_names lines).

(** A string of decimal digits. *)
Fixpoint all_digits (s : string) : bool :=
  match s with
  | EmptyString => true
  | String c r => Py.is_digit c && all_digits r
  end.

(** What the parser's record says about the line it came from. *)
Definition record_of (line : string) (p : partition) : Prop :=
  let fields := Py.split ":" line in
  part_num p = nth 0 fields ""
  /\ start p = Py.rstrip_B (nth 1 fields "")
  /\ fs_type p = nth 4 fields ""
  /\ exists s e, offsets line = Some (s, e)
                 /\ size p = Py.str (e - s)
                 /\ Py.int (size p) = Some (e - s).

(** The choice between the current best and one more candidate. *)
Definition pick (newest_snapshot : option string) (name : string)
  : option string :=
  if falsy newest_snapshot
     || match newest_snapshot with
        | Some cur => Py.gt name cur
        | None => false
        end
  then Some name else newest_snapshot.

(** [n] is a greatest element of [names]. *)
Definition greatest (names : list string) (n : string) : Prop :=
  In n names /\ Forall (fun m => String.leb m n = true) names.

(** The trace only grows: whatever an action does, it appends. *)
Definition extends {A} (m : M A) : Prop :=
  forall w t, exists s, snd (m w t) = (t ++ s)%list.

(* ================================================================= *)
(** ** Sample worlds *)

Module Sample.

Definition listing : string :=
  "BYT;" ++ nl
  ++ "/dev/sda:10485760B:scsi:512:512:msdos:ATA Disk:;" ++ nl
  ++ "1:0B:1048575B:1048576B:fat32::boot;" ++ nl
  ++ "2:1048576B:10485759B:9437184B:btrfs::;" ++ nl.

Definition subvolumes : string :=
  "ID 256 gen 12 top level 5 path @.20250101T0000" ++ nl
  ++ "ID 257 gen 14 top level 5 path @.20250831T0152" ++ nl
  ++ "ID 258 gen 13 top level 5 path @.20250601T1200" ++ nl.

Definition ok (out : string) : completed := Completed 0 out "".
Definition failed : completed := Completed 1 "" "failed".

Fixpoint lookup {A} (eqb : A -> A -> bool) {B} (k : A) (l : list (A * B))
  (default : B) : B :=
  match l with
  | [] => default
  | (k', v) :: rest => if eqb k k' then v else lookup eqb k rest default
  end.

(** A world that answers by table, whatever happened before.  Commands
    that are not in a table succeed and print nothing. *)
Definition scripted (local : list (command * completed))
  (remote : list (string * channel)) : world :=
  {| run_result := fun _ c => lookup command_eqb c local (ok "");
     exec_result := fun _ l => lookup String.eqb l remote (Channel [] "" 0);
     peername := "192.0.2.7";
     connect_error := None |}.

Definition device : string := "/dev/sda".
Definition image : string := "disk.img".

(** The image exists and both probes see the sample listing. *)
Definition healthy_local : list (command * completed) :=
  [ (stat_command image, ok ("10485760" ++ nl));
    (parted_argv image, ok listing);
    (subvolume_list, ok subvolumes) ].

Definition healthy_remote : list (string * channel) :=
  [ (parted_line device, Channel [listing] "" 0);
    (blkid_line device, Channel ["6f1c2a9e-5d3b-4c8e-9a47-0b1d2e3f4a5b" ++ nl] "" 0) ].

Definition healthy : world := scripted healthy_local healthy_remote.

(** The same, with some local commands exiting with status 1. *)
Definition failing (cmds : list command) : world :=
  scripted (map (fun c => (c, failed)) cmds ++ healthy_local) healthy_remote.

(** The remote disk is 1024 bytes larger than the image. *)
Definition larger_listing : string :=
  "BYT;" ++ nl
  ++ "/dev/sda:10486784B:scsi:512:512:msdos:ATA Disk:;" ++ nl
  ++ "1:0B:1048575B:1048576B:fat32::boot;" ++ nl
  ++ "2:1048576B:10486783B:9438208B:btrfs::;" ++ nl.

Definition mismatched : world :=
  scripted healthy_local [ (parted_line device, Channel [larger_listing] "" 0) ].

(** The remote [parted] prints the listing but exits with status 1. *)
Definition parted_exits_1 : world :=
  scripted healthy_local
    [ (parted_line device,
       Channel [listing] "Warning: Unable to open /dev/sda read-write" 1) ].

(** A listing whose second partition line has a start that is no number. *)
Definition bad_start : string :=
  "BYT;" ++ nl
  ++ "/dev/sda:10485760B:scsi:512:512:msdos:ATA Disk:;" ++ nl
  ++ "1:0B:1048575B:1048576B:fat32::boot;" ++ nl
  ++ "2:startB:10485759B:9437184B:btrfs::;" ++ nl.

(** The same, with a disk line that has no colon. *)
Definition no_disk_size : string :=
  "BYT;" ++ nl
  ++ "/dev/sda" ++ nl
  ++ "1:0B:1048575B:1048576B:fat32::boot;" ++ nl
  ++ "2:startB:10485759B:9437184B:btrfs::;" ++ nl.

(** *** A device whose btrfs partition starts at sector 3 *)

Fixpoint fill (c : ascii) (n : nat) : string :=
  match n with
  | O => EmptyString
  | S k => String c (fill c k)
  end.

(** 4096 bytes: 1536 bytes in front of the btrfs partition, then 2560
    bytes of the partition. *)
Definition unaligned_disk : string := fill "M" 1536 ++ fill "F" 2560.

Definition unaligned_listing : string :=
  "BYT;" ++ nl
  ++ "/dev/sda:4096B:scsi:512:512:msdos:ATA Disk:;" ++ nl
  ++ "1:512B:1535B:1024B:fat32::boot;" ++ nl
  ++ "2:1536B:4095B:2560B:btrfs::;" ++ nl.

(** What [dd if=... bs=1K count=n] prints for a device that holds [disk]:
    its first [n] blocks of 1024 bytes. *)
Definition dd_blocks (disk : string) (count : Z) : string :=
  substring 0 (Z.to_nat (1024 * count)) disk.

(** The output cut into the pieces that [recv] delivers. *)
Fixpoint pieces (size fuel : nat) (s : string) : list string :=
  match fuel with
  | O => []
  | S k =>
      if Py.is_empty s then []
      else substring 0 size s
             :: pieces size k (substring size (String.length s - size) s)
  end.

(** The remote [dd]: reads the block count off the command line. *)
Definition serve_dd (disk line : string) : option string :=
  let head := "dd if=" ++ device ++ " bs=1K count=" in
  if String.prefix head line
  then match Py.int (substring (String.length head)
                       (String.length line - String.length head) line) with
       | Some count => Some (dd_blocks disk count)
       | None => None
       end
  else None.

Definition unaligned : world :=
  {| run_result := fun _ c => lookup command_eqb c healthy_local (ok "");
     exec_result := fun _ l =>
       match serve_dd unaligned_disk l with
       | Some out => Channel (pieces 512 (String.length out) out) "" 0
       | None =>
           lookup String.eqb l
             [ (parted_line device, Channel [unaligned_listing] "" 0);
               (blkid_line device,
                Channel ["6f1c2a9e-5d3b-4c8e-9a47-0b1d2e3f4a5b" ++ nl] "" 0) ]
             (Channel [] "" 0)
       end;
     peername := "192.0.2.7";
     connect_error := None |}.

End Sample.

(* ================================================================= *)
(** ** Further notions used in the statements *)

(** How often [c] occurs in [s]. *)
Fixpoint count_char (c : ascii) (s : string) : nat :=
  match s with
  | EmptyString => O
  | String a r => if Ascii.eqb a c then S (count_char c r) else count_char c r
  end.

(** Whitespace only. *)
Fixpoint all_space (s : string) : bool :=
  match s with
  | EmptyString => true
  | String a r => Py.is_space a && all_space r
  end.

(** [s.endswith(c)] for one character. *)
Fixpoint ends_with (c : ascii) (s : string) : bool :=
  match s with
  | EmptyString => false
  | String a EmptyString => Ascii.eqb a c
  | String _ r => ends_with c r
  end.

(** Every event that [m] appends to the trace satisfies [P]. *)
Definition emits (P : event -> Prop) {A} (m : M A) : Prop :=
  forall w t, exists s, snd (m w t) = (t ++ s)%list /\ Forall P s.

(** Every exception that leaves [m] satisfies [Q]. *)
Definition raises (Q : exn -> Prop) {A} (m : M A) : Prop :=
  forall w t e, fst (m w t) = Raise e -> Q e.

(** The events of the pre-flight check of an existing image: the [stat],
    the remote listing and messages. *)
Definition preflight_event (device output : string) (e : event) : Prop :=
  match e with
  | Run c => c = stat_command output
  | Exec l => l = parted_line device
  | Print _ => True
  | _ => False
  end.

(** The events that touch a local file. *)
Definition file_event (e : event) : bool :=
  match e with
  | Create _ | Truncate _ _ | Write _ _ _ | WriteText _ _ => true
  | _ => false
  end.

(** The writes of the trace to [path] leave no hole: each one starts where
    the previous one ended, the first one at [pos]. *)
Fixpoint contiguous (path : string) (pos : Z) (t : trace) : bool :=
  match t with
  | [] => true
  | Write p at_ data :: rest =>
      if (p =? path)%string
      then (at_ =? pos) && contiguous path (pos + Z.of_nat (String.length data)) rest
      else contiguous path pos rest
  | _ :: rest => contiguous path pos rest
  end.

(** A record as the parser builds it: the offset has no unit left and
    both numbers read back as integers. *)
Definition parsed_record (p : partition) : Prop :=
  ends_with "B" (start p) = false
  /\ (exists s, Py.int (start p) = Some s)
  /\ (exists z, Py.int (size p) = Some z).

Definition no_btrfs_found : exn :=
  ValueError "No btrfs partition found on the device.".

(** The test of [get_partition_device]. *)
Definition p_style (device : string) : bool :=
  Py.startswith device "/dev/mmcblk" || Py.startswith device "/dev/nvme".

(** What the receive loop takes from the channel: the pieces before the
    first empty one. *)
Fixpoint received (pending : list string) : list string :=
  match pending with
  | [] => []
  | data :: rest => if Py.is_empty data then [] else data :: received rest
  end.

Definition is_write (path : string) (e : event) : Prop :=
  exists pos data, e = Write path pos data.

Definition remount_line (device : string) : string :=
  "mount -o remount,ro " ++ get_partition_device device "1".

Definition no_partitions_found : exn :=
  ValueError "No partitions found on the device.".

Definition no_uuid_found : exn :=
  ValueError "Failed to get UUID of the btrfs partition.".

(** Where [main] ends when it does not return: [sys.exit(1)], or an
    exception that [except Exception] would catch. *)
Definition exit_1_or_exception (e : exn) : Prop :=
  e = SystemExit 1 \/ is_Exception e = true.

(** A line the selector has no use for: it has fewer than nine fields, or
    its ninth field does not start with the subvolume name and a dot. *)
Definition irrelevant (subvolume line : string) : bool :=
  match listed_name line with
  | None => true
  | Some n => negb (Py.startswith n (subvolume ++ "."))
  end.

(** *** The shell and [stat]

    [subprocess.run(line, shell=True)] hands the line to [/bin/sh], which
    cuts it into words at blanks; the line that [main] builds has no
    quoting.  [stat -c %s] prints the length of every file it is given and
    that exists, one per line, and exits with 0 only if all of them
    exist. *)

Definition shell_words (line : string) : list string :=
  filter (fun word => negb (Py.is_empty word)) (Py.split " " line).

Fixpoint file_length (files : list (string * Z)) (path : string) : option Z :=
  match files with
  | [] => None
  | (p, n) :: rest => if (p =? path)%string then Some n else file_length rest path
  end.

Definition stat_lengths (files : list (string * Z)) (line : string)
  : completed :=
  match shell_words line with
  | "stat" :: "-c" :: "%s" :: paths =>
      let found :=
        flat_map (fun p => match file_length files p with
                           | Some n => [Py.str n ++ nl]
                           | None => []
                           end) paths in
      let missing :=
        existsb (fun p => match file_length files p with
                          | Some _ => false
                          | None => true
                          end) paths in
      if missing || match paths with [] => true | _ => false end
      then Completed 1 (String.concat "" found)
             "stat: cannot statx: No such file or directory"
      else Completed 0 (String.concat "" found) ""
  | _ => Completed 127 "" "sh: command not found"
  end.

Module More.

(** The sample listing with a blank line between the partition lines. *)
Definition listing_with_blank : string :=
  "BYT;" ++ nl
  ++ "/dev/sda:10485760B:scsi:512:512:msdos:ATA Disk:;" ++ nl
  ++ "1:0B:1048575B:1048576B:fat32::boot;" ++ nl
  ++ nl
  ++ "2:1048576B:10485759B:9437184B:btrfs::;" ++ nl.

(** A disk without a partition line of five fields. *)
Definition empty_listing : string :=
  "BYT;" ++ nl
  ++ "/dev/sda:10485760B:scsi:512:512:unknown:ATA Disk:;" ++ nl
  ++ "-" ++ nl.

(** A disk with a fat32 and an ext4 partition. *)
Definition ext4_listing : string :=
  "BYT;" ++ nl
  ++ "/dev/sda:10485760B:scsi:512:512:msdos:ATA Disk:;" ++ nl
  ++ "1:0B:1048575B:1048576B:fat32::boot;" ++ nl
  ++ "2:1048576B:10485759B:9437184B:ext4::;" ++ nl.

Definition uuid_answer : string * channel :=
  (blkid_line Sample.device,
   Channel ["6f1c2a9e-5d3b-4c8e-9a47-0b1d2e3f4a5b" ++ nl] "" 0).

(** Worlds in which the image does not exist yet. *)
Definition fresh_local : list (command * completed) :=
  [ (stat_command Sample.image, Completed 1 "" "stat: cannot statx");
    (parted_argv Sample.image, Sample.ok Sample.listing);
    (subvolume_list, Sample.ok Sample.subvolumes) ].

Definition fresh (remote : list (string * channel)) : world :=
  Sample.scripted fresh_local remote.

Definition no_partitions : world :=
  fresh [ (parted_line Sample.device, Channel [empty_listing] "" 0);
          uuid_answer ].

Definition no_uuid : world :=
  fresh [ (parted_line Sample.device, Channel [Sample.listing] "" 0);
          (blkid_line Sample.device, Channel [nl] "" 2) ].

Definition no_btrfs : world :=
  fresh [ (parted_line Sample.device, Channel [ext4_listing] "" 0);
          uuid_answer ].

Definition fresh_healthy : world :=
  fresh [ (parted_line Sample.device, Channel [Sample.listing] "" 0);
          uuid_answer ].

(** The connection is refused. *)
Definition unreachable : world :=
  {| run_result := fun _ _ => Sample.ok "";
     exec_result := fun _ _ => Channel [] "" 0;
     peername := "192.0.2.7";
     connect_error := Some "Authentication failed." |}.

(** The listing of subvolumes fails. *)
Definition list_fails : world :=
  Sample.scripted
    [ (subvolume_delete "@", Sample.failed);
      (subvolume_list, Completed 1 "" "ERROR: not a btrfs filesystem");
      (parted_argv Sample.image, Sample.ok Sample.listing) ]
    Sample.healthy_remote.

(** The listing of subvolumes shows no snapshot of [@]. *)
Definition no_snapshot_listed : world :=
  Sample.scripted
    [ (subvolume_list,
       Sample.ok ("ID 256 gen 12 top level 5 path @" ++ nl
                  ++ "ID 257 gen 12 top level 5 path home.20250101T0000" ++ nl));
      (parted_argv Sample.image, Sample.ok Sample.listing) ]
    Sample.healthy_remote.

(** The disk line carries no number. *)
Definition unsized_listing : string :=
  "BYT;" ++ nl
  ++ "/dev/sda:unknown:scsi:512:512:msdos:ATA Disk:;" ++ nl
  ++ "1:0B:1048575B:1048576B:fat32::boot;" ++ nl
  ++ "2:1048576B:10485759B:9437184B:btrfs::;" ++ nl.

Definition unsized : world :=
  fresh [ (parted_line Sample.device, Channel [unsized_listing] "" 0);
          uuid_answer ].

(** An image of the size of the remote disk, at a path with a blank. *)
Definition blank_image : string := "my disk.img".

Definition blank_files : list (string * Z) := [ (blank_image, 10485760) ].

Definition blank_path : world :=
  {| run_result := fun _ c =>
       match c with
       | Shell line =>
           if String.prefix "stat " line then stat_lengths blank_files line
           else Sample.failed
       | Argv _ => Sample.ok Sample.listing
       end;
     exec_result := fun _ l =>
       Sample.lookup String.eqb l Sample.healthy_remote (Channel [] "" 0);
     peername := "192.0.2.7";
     connect_error := None |}.

(** The btrfs partition is the third one; the second is ext4. *)
Definition third_listing : string :=
  "BYT;" ++ nl
  ++ "/dev/sda:10485760B:scsi:512:512:msdos:ATA Disk:;" ++ nl
  ++ "1:0B:1048575B:1048576B:fat32::boot;" ++ nl
  ++ "2:1048576B:5242879B:4194304B:ext4::;" ++ nl
  ++ "3:5242880B:10485759B:5242880B:btrfs::;" ++ nl.

Definition btrfs_third : world :=
  fresh [ (parted_line Sample.device, Channel [third_listing] "" 0);
          (blkid_line Sample.device,
           Channel ["0d0c0b0a-1111-4222-8333-444455556666" ++ nl] "" 0) ].

End More.
(* ================================================================= *)
(** * Properties *)

(** ** Decimal text *)

Lemma string_of_uint_digits (d : Decimal.uint) :
  all_digits (NilEmpty.string_of_uint d) = true.
Proof.
  induction d; simpl; auto.
Qed.

Lemma digit_not_int_space (c : ascii) :
  Py.is_digit c = true -> Py.is_int_space c = false.
Proof.
  unfold Py.is_digit, Py.is_int_space. cbv zeta.
  generalize (N_of_ascii c). intros n H.
  apply andb_true_iff in H. destruct H as [H1 H2].
  apply N.leb_le in H1. apply N.leb_le in H2.
  repeat (apply orb_false_iff; split);
    try (apply andb_false_iff);
    try (right; apply N.leb_gt; lia);
    try (apply N.eqb_neq; lia).
Qed.

Lemma rstrip_digits (s : string) :
  all_digits s = true -> Py.rstrip_by Py.is_int_space s = s.
Proof.
  induction s as [|c r IH]; simpl; auto.
  intros H. apply andb_true_iff in H. destruct H as [Hc Hr].
  rewrite IH by assumption.
  rewrite (digit_not_int_space c Hc). reflexivity.
Qed.

Lemma strip_digits (s : string) :
  all_digits s = true -> Py.int_strip s = s.
Proof.
  intros H. unfold Py.int_strip. rewrite rstrip_digits by assumption.
  destruct s as [|c r]; simpl; auto.
  simpl in H. apply andb_true_iff in H. destruct H as [Hc _].
  rewrite (digit_not_int_space c Hc). reflexivity.
Qed.

Lemma digitpart_digits (s : string) (b : bool) :
  all_digits s = true -> s <> EmptyString -> Py.digitpart b s = Some s.
Proof.
  revert b. induction s as [|c r IH]; intros b H Hne.
  - congruence.
  - simpl in H. apply andb_true_iff in H. destruct H as [Hc Hr].
    simpl. rewrite Hc.
    destruct r as [|c' r'].
    + reflexivity.
    + rewrite IH; [reflexivity | assumption | discriminate].
Qed.

Lemma digit_not_sign (c : ascii) (r : string) :
  Py.is_digit c = true ->
  match String c r with
  | String "-" r' => (true, r')
  | String "+" r' => (false, r')
  | _ => (false, String c r)
  end = (false, String c r).
Proof.
  intros H.
  destruct c as [[] [] [] [] [] [] [] []]; try reflexivity; discriminate H.
Qed.

Lemma int_of_digits (d : Decimal.uint) :
  d <> Decimal.Nil ->
  Py.int (NilEmpty.string_of_uint d) = Some (Z.of_uint d).
Proof.
  intros Hd.
  assert (Hs : all_digits (NilEmpty.string_of_uint d) = true)
    by apply string_of_uint_digits.
  assert (Hu : NilZero.uint_of_string (NilZero.string_of_uint d) = Some d)
    by (apply NilZero.usu; assumption).
  assert (Heq : NilZero.string_of_uint d = NilEmpty.string_of_uint d)
    by (destruct d; try reflexivity; congruence).
  rewrite Heq in Hu.
  unfold Py.int. rewrite strip_digits by assumption.
  destruct (NilEmpty.string_of_uint d) as [|c r] eqn:E.
  - destruct d; simpl in E; congruence.
  - simpl in Hs. apply andb_true_iff in Hs. destruct Hs as [Hc Hr].
    rewrite (digit_not_sign c r Hc).
    rewrite digitpart_digits;
      [ | simpl; rewrite Hc; assumption | discriminate ].
    rewrite Hu. reflexivity.
Qed.

Lemma pos_to_uint_nonnil (p : positive) : Pos.to_uint p <> Decimal.Nil.
Proof.
  intros H.
  pose proof (DecimalPos.Unsigned.of_to p) as Hp.
  rewrite H in Hp. simpl in Hp. discriminate.
Qed.

Lemma of_uint_to_uint (p : positive) : Z.of_uint (Pos.to_uint p) = Z.pos p.
Proof.
  unfold Z.of_uint. rewrite DecimalPos.Unsigned.of_to. reflexivity.
Qed.

(** [int(str(n)) == n] *)
Lemma int_str (z : Z) : Py.int (Py.str z) = Some z.
Proof.
  unfold Py.str. destruct z as [|p|p]; simpl.
  - reflexivity.
  - pose proof (pos_to_uint_nonnil p) as Hn.
    replace (NilZero.string_of_uint (Pos.to_uint p))
      with (NilEmpty.string_of_uint (Pos.to_uint p))
      by (destruct (Pos.to_uint p); try reflexivity; congruence).
    rewrite int_of_digits by assumption.
    rewrite of_uint_to_uint. reflexivity.
  - pose proof (pos_to_uint_nonnil p) as Hn.
    replace (NilZero.string_of_uint (Pos.to_uint p))
      with (NilEmpty.string_of_uint (Pos.to_uint p))
      by (destruct (Pos.to_uint p); try reflexivity; congruence).
    pose proof (int_of_digits _ Hn) as Hi.
    pose proof (string_of_uint_digits (Pos.to_uint p)) as Hs.
    unfold Py.int in *.
    destruct (NilEmpty.string_of_uint (Pos.to_uint p)) as [|c r] eqn:E.
    + destruct (Pos.to_uint p); simpl in E; congruence.
    + simpl in Hs. apply andb_true_iff in Hs. destruct Hs as [Hc Hr].
      assert (Hall : all_digits (String c r) = true)
        by (simpl; rewrite Hc; assumption).
      rewrite strip_digits in Hi by assumption.
      rewrite (digit_not_sign c r Hc) in Hi.
      unfold Py.int_strip.
      change (Py.rstrip_by Py.is_int_space (String "-" (String c r)))
        with (let r' := Py.rstrip_by Py.is_int_space (String c r) in
              if Py.is_int_space "-" && Py.is_empty r'
              then EmptyString else String "-" r').
      rewrite rstrip_digits by assumption.
      cbn -[Py.digitpart NilZero.uint_of_string Z.of_uint].
      destruct (Py.digitpart false (String c r)) as [ds|]; [|discriminate].
      destruct (NilZero.uint_of_string ds) as [u|]; [|discriminate].
      injection Hi as Hi. rewrite Hi, of_uint_to_uint. reflexivity.
Qed.

(* ================================================================= *)
(** ** The parser *)

Lemma data_line_ltb (line : string) :
  (List.length (Py.split ":" line) <? 5)%nat = negb (data_line line).
Proof.
  unfold data_line. rewrite Nat.leb_antisym. rewrite negb_involutive.
  reflexivity.
Qed.

Lemma parse_line_skip (line : string) :
  data_line line = false -> parse_line line = Return None.
Proof.
  intros H. unfold parse_line. cbv zeta.
  rewrite data_line_ltb, H. reflexivity.
Qed.

Lemma parse_line_keep (line : string) (s e : Z) :
  data_line line = true -> offsets line = Some (s, e) ->
  exists p, parse_line line = Return (Some p) /\ record_of line p.
Proof.
  intros Hd Ho. pose proof Ho as Ho'. unfold parse_line. cbv zeta.
  rewrite data_line_ltb, Hd. simpl negb. cbv iota.
  unfold offsets in Ho. cbv zeta in Ho. unfold to_int.
  destruct (Py.int (Py.rstrip_B (nth 1 (Py.split ":" line) ""))) as [s'|];
    [|discriminate].
  destruct (Py.int (Py.rstrip_B (nth 2 (Py.split ":" line) ""))) as [e'|];
    [|discriminate].
  injection Ho as -> ->.
  eexists. split; [reflexivity|].
  unfold record_of. cbv zeta. simpl.
  repeat split.
  exists s, e. repeat split.
  - assumption.
  - apply int_str.
Qed.

Lemma parse_line_bad (line : string) :
  data_line line = true -> offsets line = None ->
  exists x, parse_line line = Raise (ValueError (invalid_literal x)).
Proof.
  intros Hd Ho. unfold parse_line. cbv zeta.
  rewrite data_line_ltb, Hd. simpl negb. cbv iota.
  unfold offsets in Ho. cbv zeta in Ho. unfold to_int.
  destruct (Py.int (Py.rstrip_B (nth 2 (Py.split ":" line) ""))) as [e|].
  - destruct (Py.int (Py.rstrip_B (nth 1 (Py.split ":" line) ""))) as [s|].
    + discriminate.
    + eexists. reflexivity.
  - eexists. reflexivity.
Qed.

Lemma parse_line_raises (line : string) (e : exn) :
  parse_line line = Raise e -> exists x, e = ValueError (invalid_literal x).
Proof.
  unfold parse_line. cbv zeta.
  destruct (List.length (Py.split ":" line) <? 5)%nat; [discriminate|].
  unfold to_int.
  destruct (Py.int (Py.rstrip_B (nth 2 (Py.split ":" line) ""))).
  - destruct (Py.int (Py.rstrip_B (nth 1 (Py.split ":" line) ""))).
    + discriminate.
    + intros [= <-]. eexists. reflexivity.
  - intros [= <-]. eexists. reflexivity.
Qed.

(** On lines whose data lines all carry offsets the loop appends one
    record per data line, in order, to what it was given. *)
Lemma parse_lines_well_formed (lines : list string) :
  forallb (fun l => negb (data_line l) || has_offsets l) lines = true ->
  forall acc, exists ps,
    parse_lines lines acc = Return (acc ++ ps)%list
    /\ Forall2 record_of (filter data_line lines) ps.
Proof.
  induction lines as [|line rest IH]; intros Hall acc.
  - exists []. simpl. rewrite app_nil_r. split; [reflexivity | constructor].
  - simpl in Hall. apply andb_true_iff in Hall. destruct Hall as [Hl Hrest].
    simpl. destruct (data_line line) eqn:Hd.
    + simpl in Hl. unfold has_offsets in Hl.
      destruct (offsets line) as [[s e]|] eqn:Ho; [|discriminate].
      destruct (parse_line_keep line s e Hd Ho) as [p [Hp Hrec]].
      rewrite Hp.
      destruct (IH Hrest (acc ++ [p])%list) as [ps [Hps Hf]].
      exists (p :: ps). rewrite Hps, <- app_assoc. simpl.
      split; [reflexivity | constructor; assumption].
    + rewrite (parse_line_skip line Hd).
      destruct (IH Hrest acc) as [ps [Hps Hf]].
      exists ps. split; assumption.
Qed.

(** A data line without decimal offsets stops the loop with the
    [ValueError] of [int]. *)
Lemma parse_lines_bad (lines : list string) (line : string) :
  In line lines -> data_line line = true -> offsets line = None ->
  forall acc, exists x,
    parse_lines lines acc = Raise (ValueError (invalid_literal x)).
Proof.
  intros Hin Hd Ho.
  induction lines as [|l rest IH]; intros acc; [destruct Hin|].
  simpl. destruct (parse_line l) as [[p|]|e] eqn:Hp.
  - destruct Hin as [->|Hin].
    + destruct (parse_line_bad line Hd Ho) as [x Hx]. congruence.
    + apply IH. assumption.
  - destruct Hin as [->|Hin].
    + destruct (parse_line_bad line Hd Ho) as [x Hx]. congruence.
    + apply IH. assumption.
  - destruct (parse_line_raises l e Hp) as [x ->]. exists x. reflexivity.
Qed.

Lemma disk_line_field (output : string) :
  disk_line_ok output = true ->
  exists f, nth_error (Py.split ":" (nth 1 (lines_of output) "")) 1 = Some f.
Proof.
  unfold disk_line_ok. intros H. apply Nat.leb_le in H.
  destruct (Py.split ":" (nth 1 (lines_of output) "")) as [|a [|b l]];
    simpl in H; try lia.
  exists b. reflexivity.
Qed.

Lemma invalid_literal_not_format_error (x : string) :
  ValueError (invalid_literal x) <> invalid_parted_output.
Proof.
  unfold invalid_literal, invalid_parted_output. simpl. discriminate.
Qed.

(** C8: for every well-formed machine listing the parser returns, and its
    records are those of the data lines (the lines with at least five
    fields) in the order of the listing; the size of each record is the
    end offset of its line minus the start offset, both read after the
    trailing [B] is stripped. *)
Theorem parse_parted_output_sizes (output : string) :
  well_formed output = true ->
  exists disk_size partitions,
    parse_parted_output output = Return (disk_size, partitions)
    /\ Forall2 record_of
         (filter data_line (skipn 2 (lines_of output))) partitions.
Proof.
  unfold well_formed. intros H.
  apply andb_true_iff in H. destruct H as [H Hall].
  apply andb_true_iff in H. destruct H as [Hlen Hdisk].
  destruct (disk_line_field output Hdisk) as [f Hf].
  destruct (parse_lines_well_formed _ Hall []) as [ps [Hps Hrec]].
  exists (Py.rstrip_B f), ps. split; [|assumption].
  unfold parse_parted_output. cbv zeta. fold (lines_of output).
  rewrite Nat.ltb_antisym, Hlen. simpl negb. cbv iota.
  rewrite Hf, Hps. reflexivity.
Qed.

Lemma parse_parted_output_sizes_witness :
  well_formed Sample.listing = true
  /\ exists disk_size partitions,
       parse_parted_output Sample.listing = Return (disk_size, partitions)
       /\ Forall2 record_of
            (filter data_line (skipn 2 (lines_of Sample.listing))) partitions.
Proof.
  split; [reflexivity|].
  apply (parse_parted_output_sizes Sample.listing). reflexivity.
Defined.

(** C10, as stated, fails when the disk line has no second field: the
    parser stops at [disk_info[1]] with an [IndexError] before it reaches the
    partition lines. *)
Lemma parse_parted_output_bad_offset_counterexample :
  (3 <= List.length (lines_of Sample.no_disk_size))%nat
  /\ (exists line,
        In line (skipn 2 (lines_of Sample.no_disk_size))
        /\ data_line line = true /\ offsets line = None)
  /\ parse_parted_output Sample.no_disk_size
     = Raise (IndexError "list index out of range")
  /\ forall x, parse_parted_output Sample.no_disk_size
               <> Raise (ValueError (invalid_literal x)).
Proof.
  split; [vm_compute; lia|].
  split.
  - exists "2:startB:10485759B:9437184B:btrfs::;".
    split; [vm_compute; auto|]. split; reflexivity.
  - split; [reflexivity|]. intros x. vm_compute. discriminate.
Qed.

(** C10, amended: when the listing has at least three lines, its disk line
    has a size field, and some partition line with at least five fields has
    a start or end that is no decimal integer once the trailing [B] is
    stripped, the parser raises the [ValueError] of [int]: the line is not
    skipped and the error is not the one of a short listing. *)
Theorem parse_parted_output_bad_offset (output line : string) :
  (3 <= List.length (lines_of output))%nat ->
  disk_line_ok output = true ->
  In line (skipn 2 (lines_of output)) ->
  data_line line = true ->
  offsets line = None ->
  exists x,
    parse_parted_output output = Raise (ValueError (invalid_literal x))
    /\ ValueError (invalid_literal x) <> invalid_parted_output.
Proof.
  intros Hlen Hdisk Hin Hd Ho.
  destruct (disk_line_field output Hdisk) as [f Hf].
  destruct (parse_lines_bad _ line Hin Hd Ho []) as [x Hx].
  exists x. split; [|apply invalid_literal_not_format_error].
  unfold parse_parted_output. cbv zeta. fold (lines_of output).
  apply Nat.leb_le in Hlen.
  rewrite Nat.ltb_antisym, Hlen. simpl negb. cbv iota.
  rewrite Hf, Hx. reflexivity.
Qed.

Lemma parse_parted_output_bad_offset_witness :
  exists x,
    parse_parted_output Sample.bad_start
    = Raise (ValueError (invalid_literal x))
    /\ ValueError (invalid_literal x) <> invalid_parted_output.
Proof.
  apply (parse_parted_output_bad_offset Sample.bad_start
           "2:startB:10485759B:9437184B:btrfs::;").
  - vm_compute. lia.
  - reflexivity.
  - vm_compute. auto.
  - reflexivity.
  - reflexivity.
Defined.

(* ================================================================= *)
(** ** The snapshot selector *)

Lemma ascii_compare_lt_trans (x y z : ascii) :
  Ascii.compare x y = Lt -> Ascii.compare y z = Lt -> Ascii.compare x z = Lt.
Proof.
  unfold Ascii.compare. rewrite !N.compare_lt_iff. lia.
Qed.

Lemma string_leb_nil (s : string) : String.leb EmptyString s = true.
Proof. destruct s; reflexivity. Qed.

Lemma string_leb_trans (a b c : string) :
  String.leb a b = true -> String.leb b c = true -> String.leb a c = true.
Proof.
  revert b c. induction a as [|x a IH]; intros b c Hab Hbc.
  - apply string_leb_nil.
  - destruct b as [|y b]; [discriminate Hab|].
    destruct c as [|z c]; [discriminate Hbc|].
    unfold String.leb in *. simpl in *.
    destruct (Ascii.compare x y) eqn:Exy; try discriminate Hab.
    + apply Ascii.compare_eq_iff in Exy. subst y.
      destruct (Ascii.compare x z) eqn:Exz; try discriminate Hbc; auto.
      apply (IH b c); assumption.
    + destruct (Ascii.compare y z) eqn:Eyz; try discriminate Hbc.
      * apply Ascii.compare_eq_iff in Eyz. subst z. rewrite Exy. reflexivity.
      * rewrite (ascii_compare_lt_trans x y z Exy Eyz). reflexivity.
Qed.

Lemma string_leb_refl (a : string) : String.leb a a = true.
Proof.
  destruct (String.leb_total a a); assumption.
Qed.

Lemma gt_leb (name cur : string) :
  Py.gt name cur = true -> String.leb cur name = true.
Proof.
  unfold Py.gt, String.ltb, String.leb.
  destruct (String.compare cur name); auto; discriminate.
Qed.

Lemma not_gt_leb (name cur : string) :
  Py.gt name cur = false -> String.leb name cur = true.
Proof.
  unfold Py.gt, String.ltb, String.leb.
  rewrite (String.compare_antisym name cur).
  destruct (String.compare cur name); simpl; auto; discriminate.
Qed.

Lemma startswith_nonempty (subvolume name : string) :
  Py.startswith name (subvolume ++ ".") = true -> Py.is_empty name = false.
Proof.
  unfold Py.startswith. destruct name; [|reflexivity].
  destruct subvolume; simpl; discriminate.
Qed.

Lemma select_step_pick (subvolume : string) (lines : list string) :
  forall acc,
    fold_left (select_step subvolume) lines acc
    = fold_left pick (candidates subvolume lines) acc.
Proof.
  induction lines as [|line rest IH]; intros acc; [reflexivity|].
  simpl. rewrite IH. unfold candidates. simpl.
  rewrite filter_app, fold_left_app. f_equal.
  unfold select_step. destruct (listed_name line) as [name|]; simpl; auto.
  destruct (Py.startswith name (subvolume ++ ".")); simpl; reflexivity.
Qed.

Lemma pick_greatest (names : list string) :
  Forall (fun n => Py.is_empty n = false) names ->
  forall seen cur,
    greatest (cur :: seen) cur -> Py.is_empty cur = false ->
    exists n, fold_left pick names (Some cur) = Some n
              /\ Py.is_empty n = false
              /\ greatest (cur :: seen ++ names) n.
Proof.
  induction names as [|name rest IH]; intros Hne seen cur Hg Hcur.
  - exists cur. rewrite app_nil_r. auto.
  - inversion Hne as [|? ? Hname Hrest]; subst.
    simpl. unfold pick at 2. simpl. rewrite Hcur. simpl.
    destruct Hg as [_ Hall].
    destruct (Py.gt name cur) eqn:Hgt.
    + destruct (IH Hrest (cur :: seen) name) as [n [Hn [Hnn [Hin Hmax]]]].
      * split; [left; reflexivity|].
        constructor; [apply string_leb_refl|].
        apply gt_leb in Hgt.
        eapply Forall_impl; [|exact Hall].
        intros m Hm. simpl in Hm. eapply string_leb_trans; eassumption.
      * assumption.
      * exists n. split; [assumption|]. split; [assumption|].
        split.
        -- destruct Hin as [<-|Hin].
           ++ right. apply in_or_app. right. left. reflexivity.
           ++ destruct Hin as [<-|Hin]; [left; reflexivity|].
              right. apply in_app_or in Hin. apply in_or_app.
              destruct Hin as [Hin|Hin]; [left; assumption|].
              right. right. assumption.
        -- inversion Hmax as [|? ? Hname_n Hmax']; subst.
           inversion Hmax' as [|? ? Hcur_n Hmax'']; subst.
           constructor; [assumption|].
           apply Forall_app in Hmax''. destruct Hmax'' as [Hs Hr].
           apply Forall_app. split; [assumption|].
           constructor; assumption.
    + destruct (IH Hrest (seen ++ [name])%list cur) as [n [Hn [Hnn [Hin Hmax]]]].
      * split; [left; reflexivity|].
        inversion Hall as [|? ? Hcc Hseen]; subst.
        constructor; [assumption|].
        apply Forall_app. split; [assumption|].
        constructor; [apply not_gt_leb; assumption | constructor].
      * assumption.
      * exists n. rewrite <- app_assoc in Hin, Hmax. simpl in Hin, Hmax.
        split; [assumption|]. split; [assumption|].
        split; assumption.
Qed.

Lemma pick_from_none (names : list string) :
  Forall (fun n => Py.is_empty n = false) names ->
  match names with
  | [] => fold_left pick names None = None
  | _ :: _ => exists n, fold_left pick names None = Some n
                        /\ Py.is_empty n = false /\ greatest names n
  end.
Proof.
  destruct names as [|name rest]; intros Hne; [reflexivity|].
  inversion Hne as [|? ? Hname Hrest]; subst.
  simpl. unfold pick at 2. simpl.
  destruct (pick_greatest rest Hrest [] name) as [n [Hn [Hnn Hg]]].
  - split; [left; reflexivity|].
    constructor; [apply string_leb_refl | constructor].
  - assumption.
  - exists n. auto.
Qed.

Lemma candidates_nonempty (subvolume : string) (lines : list string) :
  Forall (fun n => Py.is_empty n = false) (candidates subvolume lines).
Proof.
  apply Forall_forall. intros n Hin. unfold candidates in Hin.
  apply filter_In in Hin. destruct Hin as [_ Hp].
  eapply startswith_nonempty. eassumption.
Qed.

(** C6: the selector keeps the listed names that start with the
    subvolume name followed by a dot and returns a greatest one in
    code-point lexicographic order; it raises "No snapshots found." exactly
    when none is kept.  On the three names of the specification it returns
    ["@.20250831T0152"]. *)
Theorem select_newest_greatest (subvolume : string) (lines : list string) :
  match candidates subvolume lines with
  | [] => select_newest subvolume lines = Raise no_snapshots
  | _ :: _ =>
      exists n, select_newest subvolume lines = Return n
                /\ greatest (candidates subvolume lines) n
  end
  /\ candidates "@" (lines_of Sample.subvolumes)
     = ["@.20250101T0000"; "@.20250831T0152"; "@.20250601T1200"]
  /\ select_newest "@" (lines_of Sample.subvolumes)
     = Return "@.20250831T0152".
Proof.
  split; [|split; reflexivity].
  unfold select_newest. cbv zeta. rewrite select_step_pick.
  pose proof (pick_from_none _ (candidates_nonempty subvolume lines)) as H.
  destruct (candidates subvolume lines) as [|c cs].
  - rewrite H. reflexivity.
  - destruct H as [n [Hn [Hnn Hg]]]. exists n. rewrite Hn. simpl.
    rewrite Hnn. split; [reflexivity | assumption].
Qed.

(* ================================================================= *)
(** ** One step of the script at a time *)

Lemma bind_emit {B} (e : event) (k : M B) (w : world) (t : trace) :
  (emit e ;;; k) w t = k w (t ++ [e])%list.
Proof. reflexivity. Qed.

Lemma bind_exec {B} (line : string) (k : channel -> M B) (w : world)
  (t : trace) :
  (ch <- exec_command line ;; k ch) w t
  = k (exec_result w t line) w (t ++ [Exec line])%list.
Proof. reflexivity. Qed.

Lemma bind_run {B} (cmd : command) (k : completed -> M B) (w : world)
  (t : trace) :
  (r <- subprocess_run cmd false ;; k r) w t
  = k (run_result w t cmd) w (t ++ [Run cmd])%list.
Proof. reflexivity. Qed.

Lemma bind_run_check {B} (cmd : command) (k : M B) (w : world) (t : trace) :
  (subprocess_run cmd true ;;; k) w t
  = if negb (returncode (run_result w t cmd) =? 0)
    then (Raise (CalledProcessError (returncode (run_result w t cmd)) cmd),
          (t ++ [Run cmd])%list)
    else k w (t ++ [Run cmd])%list.
Proof.
  unfold bind, subprocess_run. simpl.
  destruct (negb (returncode (run_result w t cmd) =? 0)); reflexivity.
Qed.

Lemma bind_lift {A B} (r : result A) (k : A -> M B) (w : world) (t : trace) :
  (x <- lift r ;; k x) w t
  = match r with
    | Return a => k a w t
    | Raise e => (Raise e, t)
    end.
Proof. unfold bind, lift. destruct r; reflexivity. Qed.

Lemma bind_assoc {A B C} (m : M A) (k : A -> M B) (h : B -> M C) (w : world)
  (t : trace) :
  (y <- (x <- m ;; k x) ;; h y) w t = (x <- m ;; y <- k x ;; h y) w t.
Proof.
  unfold bind. destruct (m w t) as [[a|e] t']; reflexivity.
Qed.

Lemma extends_ret {A} (a : A) : extends (ret a).
Proof. intros w t. exists []. simpl. now rewrite app_nil_r. Qed.

Lemma extends_raise {A} (e : exn) : extends (@raise A e).
Proof. intros w t. exists []. simpl. now rewrite app_nil_r. Qed.

Lemma extends_lift {A} (r : result A) : extends (lift r).
Proof. intros w t. exists []. simpl. now rewrite app_nil_r. Qed.

Lemma extends_emit (e : event) : extends (emit e).
Proof. intros w t. exists [e]. reflexivity. Qed.

Lemma extends_exec (line : string) : extends (exec_command line).
Proof. intros w t. exists [Exec line]. reflexivity. Qed.

Lemma extends_run (cmd : command) (check : bool) :
  extends (subprocess_run cmd check).
Proof.
  intros w t. exists [Run cmd]. unfold subprocess_run. cbv zeta.
  destruct (check && negb (returncode (run_result w t cmd) =? 0));
    reflexivity.
Qed.

Lemma extends_bind {A B} (m : M A) (k : A -> M B) :
  extends m -> (forall a, extends (k a)) -> extends (bind m k).
Proof.
  intros Hm Hk w t. unfold bind.
  destruct (Hm w t) as [s Hs].
  destruct (m w t) as [[a|e] t']; simpl in Hs; subst t'.
  - destruct (Hk a w (t ++ s)%list) as [s' Hs'].
    exists (s ++ s')%list. rewrite Hs'. now rewrite app_assoc.
  - exists s. reflexivity.
Qed.

Lemma extends_recv_loop (path : string) (pending : list string) :
  forall pos, extends (recv_loop path pending pos).
Proof.
  induction pending as [|data rest IH]; intros pos; simpl.
  - apply extends_ret.
  - destruct (Py.is_empty data); [apply extends_ret|].
    apply extends_bind; [apply extends_emit | intros _; apply IH].
Qed.

Lemma extends_truncate (path : string) (n : Z) : extends (truncate path n).
Proof.
  unfold truncate. destruct (n <? 0);
    [apply extends_raise | apply extends_emit].
Qed.

Lemma extends_getpeername : extends getpeername.
Proof. intros w t. exists []. simpl. now rewrite app_nil_r. Qed.

Lemma extends_try_finally {A} (body : M A) (final : M unit) :
  extends body -> extends final -> extends (try_finally body final).
Proof.
  intros Hb Hf w t. unfold try_finally.
  destruct (Hb w t) as [s Hs].
  destruct (body w t) as [r t']. simpl in Hs. subst t'.
  destruct (Hf w (t ++ s)%list) as [s' Hs'].
  destruct (final w (t ++ s)%list) as [[[]|e] t'];
    simpl in Hs'; subst t'; exists (s ++ s')%list; simpl;
    now rewrite app_assoc.
Qed.

Create HintDb extends.

#[local] Hint Resolve extends_ret extends_raise extends_lift extends_emit
  extends_exec extends_run extends_recv_loop extends_truncate
  extends_getpeername : extends.

Ltac extends_steps :=
  repeat first
    [ apply extends_bind; [ | intros ? ]
    | apply extends_try_finally
    | progress auto with extends
    | match goal with
      | |- extends (match ?x with _ => _ end) => destruct x
      end ].

Lemma extends_make_filesystem (output_file uuid : string) :
  extends (make_filesystem output_file uuid).
Proof. unfold make_filesystem. extends_steps. Qed.

Lemma extends_run_backup_try (subvolume : string) :
  extends (run_backup_try subvolume).
Proof. unfold run_backup_try. extends_steps. Qed.

Lemma extends_run_backup_finally : extends run_backup_finally.
Proof. unfold run_backup_finally. extends_steps. Qed.

#[local] Hint Resolve extends_make_filesystem extends_run_backup_try
  extends_run_backup_finally : extends.

(* ================================================================= *)
(** ** The raw copy *)

Lemma append_nil_r (s : string) : s ++ "" = s.
Proof. induction s; simpl; congruence. Qed.

Lemma append_assoc (a b c : string) : (a ++ b) ++ c = a ++ (b ++ c).
Proof. induction a; simpl; congruence. Qed.

Lemma concat_cons (data : string) (rest : list string) :
  String.concat "" (data :: rest) = data ++ String.concat "" rest.
Proof.
  destruct rest; simpl; [now rewrite append_nil_r | reflexivity].
Qed.

Lemma written_to_app (path : string) (t s : trace) :
  written_to path (t ++ s)%list = written_to path t ++ written_to path s.
Proof.
  induction t as [|e t IH]; simpl; [reflexivity|].
  destruct e; auto.
  destruct (path0 =? path)%string; [|assumption].
  rewrite IH. now rewrite append_assoc.
Qed.

Lemma written_to_write (path : string) (pos : Z) (data : string) :
  written_to path [Write path pos data] = data.
Proof.
  simpl. rewrite String.eqb_refl. apply append_nil_r.
Qed.

(** The receive loop returns, and it has written what the channel
    delivered, piece by piece. *)
Lemma recv_loop_written (path : string) (pending : list string) :
  Forall (fun data => Py.is_empty data = false) pending ->
  forall pos w t,
    recv_loop path pending pos w t
    = (Return tt, snd (recv_loop path pending pos w t))
    /\ written_to path (snd (recv_loop path pending pos w t))
       = written_to path t ++ String.concat "" pending.
Proof.
  induction 1 as [|data rest Hd Hrest IH]; intros pos w t.
  - simpl. split; [reflexivity | now rewrite append_nil_r].
  - rewrite concat_cons.
    change (recv_loop path (data :: rest) pos)
      with (if Py.is_empty data then ret tt
            else emit (Write path pos data) ;;;
                 recv_loop path rest (pos + Z.of_nat (String.length data))).
    rewrite Hd, bind_emit.
    destruct (IH (pos + Z.of_nat (String.length data)) w
                (t ++ [Write path pos data])%list) as [Hr Hw].
    split; [assumption|].
    rewrite Hw, written_to_app, written_to_write.
    apply append_assoc.
Qed.

(** C3: on a device whose btrfs partition starts at byte 1536 the
    initializer asks [dd] for one block of 1024 bytes and writes those 1024
    bytes into the image: the 512 bytes between the last whole block and the
    start of the partition are not copied. *)
Theorem raw_copy_stops_at_block_boundary :
  (exists disk_size partitions,
      parse_parted_output Sample.unaligned_listing
      = Return (disk_size, partitions)
      /\ get_btrfs_partition_offset partitions = Return 1536)
  /\ fst (create_initial_image Sample.device Sample.image Sample.unaligned [])
     = Return tt
  /\ In (Exec "dd if=/dev/sda bs=1K count=1")
       (snd (create_initial_image Sample.device Sample.image
               Sample.unaligned []))
  /\ written_to Sample.image
       (snd (create_initial_image Sample.device Sample.image
               Sample.unaligned []))
     = substring 0 1024 Sample.unaligned_disk
  /\ String.length
       (written_to Sample.image
          (snd (create_initial_image Sample.device Sample.image
                  Sample.unaligned [])))
     = 1024%nat.
Proof.
  split.
  - eexists. eexists. split; vm_compute; reflexivity.
  - split; [vm_compute; reflexivity|].
    split; [vm_compute; tauto|].
    split; vm_compute; reflexivity.
Qed.

(** The block count of the copy is the offset divided by 1024, rounded
    down, so the copy covers the offset only when it is a multiple of
    1024. *)
Lemma copy_command_covers (device : string) (btrfs_start : Z) :
  copy_command device btrfs_start
  = "dd if=" ++ device ++ " bs=1K count=" ++ Py.str (btrfs_start / 1024)
  /\ (1024 * (btrfs_start / 1024) = btrfs_start <-> btrfs_start mod 1024 = 0).
Proof.
  split; [reflexivity|].
  pose proof (Z.div_mod btrfs_start 1024). lia.
Qed.

(* ================================================================= *)
(** ** The probes *)

Lemma get_partitions_local_failed (device : string) (w : world) (t : trace) :
  returncode (run_result w t (parted_argv device)) <> 0 ->
  get_partitions_local device w t
  = (Raise (RuntimeError
              ("Failed to run parted: "
                 ++ stderr (run_result w t (parted_argv device)))),
     (t ++ [Run (parted_argv device)])%list).
Proof.
  intros H. unfold get_partitions_local. rewrite bind_run.
  apply Z.eqb_neq in H. rewrite H. reflexivity.
Qed.

Lemma get_partitions_ssh_parses (device : string) (w : world) (t : trace) :
  get_partitions_ssh device w t
  = (parse_parted_output (read_stdout (exec_result w t (parted_line device))),
     (t ++ [Exec (parted_line device)])%list).
Proof.
  unfold get_partitions_ssh. rewrite bind_exec. reflexivity.
Qed.

(** C4: when the remote [parted] exits with status 1 after printing a
    listing, the remote probe returns the parsed listing; the local probe,
    given a [parted] that exits with status 1, raises the [RuntimeError]
    that carries the error stream. *)
Theorem get_partitions_ssh_ignores_exit_status :
  exit_status (exec_result Sample.parted_exits_1 []
                 (parted_line Sample.device)) = 1
  /\ get_partitions_ssh Sample.device Sample.parted_exits_1 []
     = (Return ("10485760",
                [ Partition "1" "1048575" "0" "fat32";
                  Partition "2" "9437183" "1048576" "btrfs" ]),
        [Exec "parted --machine /dev/sda unit B print"])
  /\ get_partitions_local Sample.image
       (Sample.failing [parted_argv Sample.image]) []
     = (Raise (RuntimeError "Failed to run parted: failed"),
        [Run (parted_argv Sample.image)]).
Proof.
  split; [reflexivity|]. split; vm_compute; reflexivity.
Qed.

(* ================================================================= *)
(** ** The last step of the initializer *)

Lemma create_initial_image_ends_with_make_filesystem
  (device output_file : string) (w : world) (t : trace) :
  fst (create_initial_image device output_file w t) = Return tt ->
  exists uuid t',
    create_initial_image device output_file w t
    = make_filesystem output_file uuid w t'.
Proof.
  destruct (create_initial_image device output_file w t) as [r tr] eqn:E.
  simpl. intros ->. revert E.
  unfold create_initial_image.
  unfold bind at 1.
  destruct (get_partitions_ssh device w t) as [[[disk_size partitions]|e] t0];
    [|discriminate].
  destruct partitions as [|p ps]; [discriminate|].
  rewrite bind_exec.
  destruct (Py.is_empty (Py.strip (read_stdout
              (exec_result w t0 (blkid_line device))))); [discriminate|].
  rewrite bind_exec, bind_emit, bind_lift.
  destruct (to_int disk_size) as [n|e]; [|discriminate].
  unfold bind at 1.
  destruct (truncate output_file n w _) as [[[]|e] t1]; [|discriminate].
  rewrite bind_lift.
  destruct (get_btrfs_partition_offset (p :: ps)) as [off|e]; [|discriminate].
  rewrite bind_exec.
  unfold bind at 1.
  destruct (recv_loop output_file _ 0 w _) as [[[]|e] t2]; [|discriminate].
  intros <-. eexists. eexists. reflexivity.
Qed.

Lemma losetup_bind_not_detach (output_file : string) :
  losetup_bind output_file <> losetup_detach.
Proof. unfold losetup_bind, losetup_detach. simpl. discriminate. Qed.

Lemma mkfs_not_detach (uuid : string) : mkfs_btrfs uuid <> losetup_detach.
Proof. unfold mkfs_btrfs, losetup_detach. simpl. discriminate. Qed.

(** C5, as stated, fails: when [mkfs.btrfs] exits with status 1 the
    initializer stops there, after the bind and without the detach. *)
Lemma make_filesystem_detach_counterexample :
  let w := Sample.failing
             [mkfs_btrfs "6f1c2a9e-5d3b-4c8e-9a47-0b1d2e3f4a5b"] in
  fst (create_initial_image Sample.device Sample.image w [])
  = Raise (CalledProcessError 1
             (mkfs_btrfs "6f1c2a9e-5d3b-4c8e-9a47-0b1d2e3f4a5b"))
  /\ occurs (Run (losetup_bind Sample.image))
       (snd (create_initial_image Sample.device Sample.image w [])) = true
  /\ occurs (Run losetup_detach)
       (snd (create_initial_image Sample.device Sample.image w [])) = false.
Proof.
  repeat split; vm_compute; reflexivity.
Qed.

Lemma make_filesystem_outcome (output_file uuid : string) (w : world)
  (t : trace) :
  let bind_ := losetup_bind output_file in
  let mkfs := mkfs_btrfs uuid in
  let t1 := (t ++ [Run bind_])%list in
  let t2 := (t1 ++ [Run mkfs])%list in
  let t3 := (t2 ++ [Run losetup_detach])%list in
  let rc1 := returncode (run_result w t bind_) in
  let rc2 := returncode (run_result w t1 mkfs) in
  let rc3 := returncode (run_result w t2 losetup_detach) in
  make_filesystem output_file uuid w t
  = if negb (rc1 =? 0) then (Raise (CalledProcessError rc1 bind_), t1)
    else if negb (rc2 =? 0) then (Raise (CalledProcessError rc2 mkfs), t2)
    else if negb (rc3 =? 0)
         then (Raise (CalledProcessError rc3 losetup_detach), t3)
         else (Return tt, t3).
Proof.
  cbv zeta. unfold make_filesystem.
  rewrite bind_run_check.
  destruct (negb (returncode (run_result w t (losetup_bind output_file)) =? 0));
    [reflexivity|].
  rewrite bind_run_check.
  destruct (negb (returncode (run_result w _ (mkfs_btrfs uuid)) =? 0));
    [reflexivity|].
  rewrite bind_run_check.
  destruct (negb (returncode (run_result w _ losetup_detach) =? 0));
    reflexivity.
Qed.

(** C5, amended: in the last step of the initializer the loop device is
    detached after the bind and the filesystem creation have both
    succeeded; when the bind or [mkfs.btrfs] exits non-zero the step raises
    [CalledProcessError] at that command and the detach is not run. *)
Theorem make_filesystem_detach (output_file uuid : string) (w : world)
  (t : trace) :
  let bind_ := losetup_bind output_file in
  let mkfs := mkfs_btrfs uuid in
  let t1 := (t ++ [Run bind_])%list in
  let t2 := (t1 ++ [Run mkfs])%list in
  let rc1 := returncode (run_result w t bind_) in
  let rc2 := returncode (run_result w t1 mkfs) in
  (rc1 <> 0 ->
   make_filesystem output_file uuid w t
   = (Raise (CalledProcessError rc1 bind_), t1))
  /\ (rc1 = 0 -> rc2 <> 0 ->
      make_filesystem output_file uuid w t
      = (Raise (CalledProcessError rc2 mkfs), t2))
  /\ exists steps,
       snd (make_filesystem output_file uuid w t) = (t ++ steps)%list
       /\ (In (Run losetup_detach) steps <-> rc1 = 0 /\ rc2 = 0).
Proof.
  cbv zeta.
  pose proof (make_filesystem_outcome output_file uuid w t) as Heq.
  cbv zeta in Heq. rewrite Heq. clear Heq.
  pose proof (losetup_bind_not_detach output_file) as Hb.
  pose proof (mkfs_not_detach uuid) as Hm.
  destruct (Z.eqb_spec
              (returncode (run_result w t (losetup_bind output_file))) 0)
    as [E1|E1]; simpl negb; cbv iota.
  - destruct (Z.eqb_spec
                (returncode
                   (run_result w (t ++ [Run (losetup_bind output_file)])%list
                      (mkfs_btrfs uuid))) 0) as [E2|E2]; simpl negb; cbv iota.
    + split; [intros H; contradiction|].
      split; [intros _ H; contradiction|].
      exists [Run (losetup_bind output_file); Run (mkfs_btrfs uuid);
              Run losetup_detach].
      split.
      * destruct (negb _); simpl; rewrite <- !app_assoc; reflexivity.
      * split; [auto|]. intros _. simpl. auto.
    + split; [intros H; contradiction|].
      split; [reflexivity|].
      exists [Run (losetup_bind output_file); Run (mkfs_btrfs uuid)].
      split; [simpl; rewrite <- !app_assoc; reflexivity|].
      split; [|intros [_ H]; contradiction].
      simpl. intros [H|[H|[]]]; congruence.
  - split; [reflexivity|].
    split; [intros H; contradiction|].
    exists [Run (losetup_bind output_file)].
    split; [reflexivity|].
    split; [|intros [H _]; contradiction].
    simpl. intros [H|[]]. congruence.
Qed.

(* ================================================================= *)
(** ** The backup session *)

(** The [finally] block, command by command. *)
Lemma run_backup_finally_outcome (w : world) (t : trace) :
  let umount := Shell umount_line in
  let t1 := (t ++ [Run umount])%list in
  let t2 := (t1 ++ [Run losetup_detach])%list in
  let rc1 := returncode (run_result w t umount) in
  let rc2 := returncode (run_result w t1 losetup_detach) in
  run_backup_finally w t
  = if negb (rc1 =? 0) then (Raise (CalledProcessError rc1 umount), t1)
    else if negb (rc2 =? 0)
         then (Raise (CalledProcessError rc2 losetup_detach), t2)
         else (Return tt, (t2 ++ [Exec umount_line])%list).
Proof.
  cbv zeta. unfold run_backup_finally.
  rewrite bind_run_check.
  destruct (negb (returncode (run_result w t (Shell umount_line)) =? 0));
    [reflexivity|].
  rewrite bind_run_check.
  destruct (negb (returncode (run_result w _ losetup_detach) =? 0));
    reflexivity.
Qed.

Lemma run_backup_try_sync_failed (subvolume : string) (w : world) (t : trace) :
  returncode (run_result w t btrbk) <> 0 ->
  run_backup_try subvolume w t
  = (Raise (CalledProcessError (returncode (run_result w t btrbk)) btrbk),
     (t ++ [Run btrbk])%list).
Proof.
  intros H. unfold run_backup_try. rewrite bind_run_check.
  apply Z.eqb_neq in H. rewrite H. reflexivity.
Qed.

(** C1, as stated, fails: the sync engine exits with status 1 and so does
    the local unmount; the session ends there, with neither the detach of
    the loop device nor the remote unmount. *)
Lemma run_backup_cleanup_counterexample :
  let w := Sample.failing [btrbk; Shell umount_line] in
  returncode (run_result w [] btrbk) = 1
  /\ fst (run_backup Sample.device Sample.image "@" w [])
     = Raise (CalledProcessError 1 (Shell umount_line))
  /\ occurs (Run btrbk)
       (snd (run_backup Sample.device Sample.image "@" w [])) = true
  /\ occurs (Run (Shell umount_line))
       (snd (run_backup Sample.device Sample.image "@" w [])) = true
  /\ occurs (Run losetup_detach)
       (snd (run_backup Sample.device Sample.image "@" w [])) = false
  /\ occurs (Exec umount_line)
       (snd (run_backup Sample.device Sample.image "@" w [])) = false.
Proof.
  repeat split; vm_compute; reflexivity.
Qed.

(** C1, amended: in a session that reached the sync stage, when the sync
    engine exits non-zero or a rotation step fails, the cleanup runs before
    the error leaves [run_backup].  Its release steps are attempted in the
    order local unmount, loop detach, remote unmount, each only after the
    previous ones succeeded: a local unmount or a detach that exits non-zero
    raises [CalledProcessError] in place of the original error and the
    remaining release steps are not run; when both succeed the remote
    unmount is issued and the original error is raised again. *)
Theorem run_backup_cleanup (device output_file subvolume : string)
  (w : world) (t t1 t2 : trace) (e : exn) :
  run_backup_setup device output_file subvolume w t = (Return tt, t1) ->
  run_backup_try subvolume w t1 = (Raise e, t2) ->
  let umount := Shell umount_line in
  let t3 := (t2 ++ [Run umount])%list in
  let t4 := (t3 ++ [Run losetup_detach])%list in
  let rc1 := returncode (run_result w t2 umount) in
  let rc2 := returncode (run_result w t3 losetup_detach) in
  run_backup device output_file subvolume w t
  = (if negb (rc1 =? 0) then (Raise (CalledProcessError rc1 umount), t3)
     else if negb (rc2 =? 0)
          then (Raise (CalledProcessError rc2 losetup_detach), t4)
          else (Raise e, (t4 ++ [Exec umount_line])%list))
  /\ (returncode (run_result w t1 btrbk) <> 0 ->
      e = CalledProcessError (returncode (run_result w t1 btrbk)) btrbk
      /\ t2 = (t1 ++ [Run btrbk])%list).
Proof.
  intros Hsetup Htry. cbv zeta. split.
  - unfold run_backup. unfold bind. rewrite Hsetup.
    unfold try_finally. rewrite Htry.
    rewrite run_backup_finally_outcome. cbv zeta.
    destruct (negb (returncode (run_result w t2 (Shell umount_line)) =? 0));
      [reflexivity|].
    destruct (negb (returncode (run_result w _ losetup_detach) =? 0));
      reflexivity.
  - intros Hrc. rewrite (run_backup_try_sync_failed _ _ _ Hrc) in Htry.
    injection Htry as <- <-. split; reflexivity.
Qed.

Lemma run_backup_cleanup_witness :
  let w := Sample.failing [btrbk] in
  run_backup Sample.device Sample.image "@" w []
  = (Raise (CalledProcessError 1 btrbk),
     [ Run (parted_argv Sample.image);
       Run (losetup_bind Sample.image);
       Run local_mount;
       Exec (remote_mount_line Sample.device);
       Print "";
       WriteText config_file (btrbk_config "192.0.2.7" "@");
       Run btrbk;
       Run (Shell umount_line);
       Run losetup_detach;
       Exec umount_line ]).
Proof.
  intros w.
  pose proof (run_backup_cleanup Sample.device Sample.image "@" w []
    [ Run (parted_argv Sample.image);
      Run (losetup_bind Sample.image);
      Run local_mount;
      Exec (remote_mount_line Sample.device);
      Print "";
      WriteText config_file (btrbk_config "192.0.2.7" "@") ]
    [ Run (parted_argv Sample.image);
      Run (losetup_bind Sample.image);
      Run local_mount;
      Exec (remote_mount_line Sample.device);
      Print "";
      WriteText config_file (btrbk_config "192.0.2.7" "@");
      Run btrbk ]
    (CalledProcessError 1 btrbk)
    ltac:(vm_compute; reflexivity) ltac:(vm_compute; reflexivity)) as [H _].
  rewrite H. vm_compute. reflexivity.
Defined.

(** C2, as stated, fails: the loop bind exits with status 1 and the
    session ends there; no release step of the cleanup is run. *)
Lemma run_backup_mount_counterexample :
  let w := Sample.failing [losetup_bind Sample.image] in
  run_backup Sample.device Sample.image "@" w []
  = (Raise (CalledProcessError 1 (losetup_bind Sample.image)),
     [ Run (parted_argv Sample.image); Run (losetup_bind Sample.image) ])
  /\ occurs (Run (Shell umount_line))
       (snd (run_backup Sample.device Sample.image "@" w [])) = false
  /\ occurs (Run losetup_detach)
       (snd (run_backup Sample.device Sample.image "@" w [])) = false
  /\ occurs (Exec umount_line)
       (snd (run_backup Sample.device Sample.image "@" w [])) = false.
Proof.
  repeat split; vm_compute; reflexivity.
Qed.

Lemma run_backup_try_starts_sync (subvolume : string) (w : world) (t : trace) :
  exists rest,
    snd (try_finally (run_backup_try subvolume) run_backup_finally w t)
    = (t ++ Run btrbk :: rest)%list.
Proof.
  unfold try_finally, run_backup_try. rewrite bind_run_check.
  destruct (negb (returncode (run_result w t btrbk) =? 0)).
  - destruct (extends_run_backup_finally w (t ++ [Run btrbk])%list) as [s Hs].
    destruct (run_backup_finally w (t ++ [Run btrbk])%list) as [[[]|e] t'];
      simpl in Hs; subst t'; exists s; simpl; now rewrite <- app_assoc.
  - match goal with
    | |- context [ bind ?m ?k w ?t0 ] =>
        assert (Hrest : extends (bind m k)) by extends_steps;
        destruct (Hrest w t0) as [s Hs];
        destruct (bind m k w t0) as [r t']
    end.
    simpl in Hs. subst t'.
    destruct (extends_run_backup_finally w ((t ++ [Run btrbk]) ++ s)%list)
      as [s' Hs'].
    destruct (run_backup_finally w ((t ++ [Run btrbk]) ++ s)%list)
      as [[[]|e] t'];
      simpl in Hs'; subst t'; exists (s ++ s')%list; simpl;
      rewrite <- !app_assoc; reflexivity.
Qed.

(** C2, amended: after a successful local probe, when the loop bind or the
    local mount exits non-zero the session does not reach the sync stage:
    [CalledProcessError] is raised at that command and no release step of
    the cleanup is run.  The exit status of the remote mount is not
    examined: whatever it is, the session writes the configuration and
    starts the sync engine. *)
Theorem run_backup_mount_failure (device output_file subvolume : string)
  (w : world) (t : trace) (disk_size : string) (partitions : list partition) :
  let t0 := (t ++ [Run (parted_argv output_file)])%list in
  get_partitions_local output_file w t = (Return (disk_size, partitions), t0) ->
  let bind_ := losetup_bind output_file in
  let t1 := (t0 ++ [Run bind_])%list in
  let t2 := (t1 ++ [Run local_mount])%list in
  let ch := exec_result w t2 (remote_mount_line device) in
  let t3 := (t2 ++ [Exec (remote_mount_line device); Print (errors ch);
                    WriteText config_file
                      (btrbk_config (peername w) subvolume)])%list in
  let rc1 := returncode (run_result w t0 bind_) in
  let rc2 := returncode (run_result w t1 local_mount) in
  run_backup device output_file subvolume w t
  = (if negb (rc1 =? 0) then (Raise (CalledProcessError rc1 bind_), t1)
     else if negb (rc2 =? 0)
          then (Raise (CalledProcessError rc2 local_mount), t2)
          else try_finally (run_backup_try subvolume) run_backup_finally w t3)
  /\ exists rest,
       snd (try_finally (run_backup_try subvolume) run_backup_finally w t3)
       = (t3 ++ Run btrbk :: rest)%list.
Proof.
  cbv zeta. intros Hprobe. split; [|apply run_backup_try_starts_sync].
  unfold run_backup, run_backup_setup.
  rewrite bind_assoc. unfold bind at 1. rewrite Hprobe.
  rewrite bind_assoc, bind_run_check.
  destruct (negb (returncode (run_result w _ (losetup_bind output_file)) =? 0));
    [reflexivity|].
  rewrite bind_assoc, bind_run_check.
  destruct (negb (returncode (run_result w _ local_mount) =? 0));
    [reflexivity|].
  rewrite bind_assoc, bind_exec, bind_assoc, bind_emit.
  unfold bind, getpeername, emit. simpl.
  rewrite <- !app_assoc. reflexivity.
Qed.

Lemma run_backup_mount_failure_witness :
  let w := Sample.failing [local_mount] in
  run_backup Sample.device Sample.image "@" w []
  = (Raise (CalledProcessError 1 local_mount),
     [ Run (parted_argv Sample.image);
       Run (losetup_bind Sample.image);
       Run local_mount ]).
Proof.
  intros w.
  pose proof (run_backup_mount_failure Sample.device Sample.image "@" w []
    "10485760"
    [ Partition "1" "1048575" "0" "fat32";
      Partition "2" "9437183" "1048576" "btrfs" ]
    ltac:(vm_compute; reflexivity)) as [H _].
  rewrite H. vm_compute. reflexivity.
Defined.

(* ================================================================= *)
(** ** The entry point *)

Lemma connect_ok (hostname : string) (w : world) (t : trace) :
  connect_error w = None ->
  connect hostname w t = (Return tt, (t ++ [Connect hostname])%list).
Proof.
  intros H. unfold connect. rewrite bind_emit. rewrite H. reflexivity.
Qed.

Lemma check_or_create_existing (device output : string) (w : world)
  (t : trace) (local_size remote : Z) (remote_size : string)
  (partitions : list partition) :
  let r := run_result w t (stat_command output) in
  let t1 := (t ++ [Run (stat_command output)])%list in
  let t2 := (t1 ++ [Exec (parted_line device)])%list in
  returncode r = 0 ->
  Py.int (Py.strip (stdout r)) = Some local_size ->
  parse_parted_output (read_stdout (exec_result w t1 (parted_line device)))
  = Return (remote_size, partitions) ->
  Py.int remote_size = Some remote ->
  check_or_create device output w t
  = if local_size =? remote then (Return tt, t2)
    else (Raise (SystemExit 1),
          (t2 ++ [Print (size_mismatch_message local_size remote_size)])%list).
Proof.
  cbv zeta. intros Hrc Hlocal Hprobe Hremote.
  unfold check_or_create. rewrite bind_run, Hrc.
  change (negb (0 =? 0)) with false. cbv iota.
  rewrite bind_lift. unfold to_int at 1. rewrite Hlocal.
  unfold bind at 1. rewrite get_partitions_ssh_parses, Hprobe.
  rewrite bind_lift. unfold to_int. rewrite Hremote.
  destruct (local_size =? remote); reflexivity.
Qed.

(** When [stat] exits with 0 and prints the length of the output file,
    and the remote probe yields the disk size, [main] does nothing
    but the [stat] and the remote listing before it decides: on equal sizes
    it goes on with [run_backup], which starts with the local probe, and the
    initializer is not run; on different sizes it prints the mismatch and
    exits with status 1, with no further command, local or remote. *)
Theorem main_existing_image (hostname device output : string) (w : world)
  (t : trace) (local_size remote : Z) (remote_size : string)
  (partitions : list partition) :
  connect_error w = None ->
  let t0 := (t ++ [Connect hostname])%list in
  let r := run_result w t0 (stat_command output) in
  let t1 := (t0 ++ [Run (stat_command output)])%list in
  let t2 := (t1 ++ [Exec (parted_line device)])%list in
  returncode r = 0 ->
  Py.int (Py.strip (stdout r)) = Some local_size ->
  parse_parted_output (read_stdout (exec_result w t1 (parted_line device)))
  = Return (remote_size, partitions) ->
  Py.int remote_size = Some remote ->
  main hostname device output w t
  = (if local_size =? remote
     then (run_backup device output "@" ;;; emit Close) w t2
     else (Raise (SystemExit 1),
           (t2 ++ [Print (size_mismatch_message local_size remote_size)])%list))
  /\ exists rest,
       snd ((run_backup device output "@" ;;; emit Close) w t2)
       = (t2 ++ Run (parted_argv output) :: rest)%list.
Proof.
  cbv zeta. intros Hc Hrc Hlocal Hprobe Hremote. split.
  - unfold main. unfold bind at 1. rewrite (connect_ok _ _ _ Hc).
    unfold bind at 1. unfold try_except.
    rewrite (check_or_create_existing device output w _ local_size remote
               remote_size partitions Hrc Hlocal Hprobe Hremote).
    destruct (local_size =? remote); reflexivity.
  - unfold run_backup, run_backup_setup, get_partitions_local.
    rewrite !bind_assoc, bind_run.
    match goal with
    | |- context [ snd (?X w ?t') ] =>
        assert (Hx : extends X) by extends_steps;
        destruct (Hx w t') as [s Hs]
    end.
    exists s. rewrite Hs. now rewrite <- app_assoc.
Qed.

Lemma main_existing_image_witness :
  main "backup-host" Sample.device Sample.image Sample.mismatched []
  = (Raise (SystemExit 1),
     [ Connect "backup-host";
       Run (stat_command Sample.image);
       Exec (parted_line Sample.device);
       Print (size_mismatch_message 10485760 "10486784") ])
  /\ main "backup-host" Sample.device Sample.image Sample.healthy []
     = (run_backup Sample.device Sample.image "@" ;;; emit Close)
         Sample.healthy
         [ Connect "backup-host";
           Run (stat_command Sample.image);
           Exec (parted_line Sample.device) ].
Proof.
  split.
  - pose proof (main_existing_image "backup-host" Sample.device Sample.image
      Sample.mismatched [] 10485760 10486784 "10486784"
      [ Partition "1" "1048575" "0" "fat32";
        Partition "2" "9438207" "1048576" "btrfs" ]
      eq_refl ltac:(vm_compute; reflexivity) ltac:(vm_compute; reflexivity)
      ltac:(vm_compute; reflexivity) ltac:(vm_compute; reflexivity)) as [H _].
    rewrite H. reflexivity.
  - pose proof (main_existing_image "backup-host" Sample.device Sample.image
      Sample.healthy [] 10485760 10485760 "10485760"
      [ Partition "1" "1048575" "0" "fat32";
        Partition "2" "9437183" "1048576" "btrfs" ]
      eq_refl ltac:(vm_compute; reflexivity) ltac:(vm_compute; reflexivity)
      ltac:(vm_compute; reflexivity) ltac:(vm_compute; reflexivity)) as [H _].
    rewrite H. reflexivity.
Defined.

(* ================================================================= *)
(** ** Partition paths *)

Lemma append_inj (a b c : string) : a ++ b = a ++ c -> b = c.
Proof.
  induction a; simpl; intros H; [assumption|].
  injection H as H. auto.
Qed.

Lemma get_partition_device_inj (device m n : string) :
  get_partition_device device m = get_partition_device device n -> m = n.
Proof.
  unfold get_partition_device.
  destruct (Py.startswith device "/dev/mmcblk"
            || Py.startswith device "/dev/nvme"); intros H.
  - apply append_inj in H. simpl in H. injection H as H. assumption.
  - apply append_inj in H. assumption.
Qed.

(* ================================================================= *)
(** * Further properties *)

(** ** The parser: short, padded and sparse listings *)

Lemma split_length (c : ascii) (s : string) :
  List.length (Py.split c s) = S (count_char c s).
Proof.
  induction s as [|a r IH]; simpl; [reflexivity|].
  destruct (Ascii.eqb a c); simpl.
  - rewrite IH. reflexivity.
  - destruct (Py.split c r) as [|x xs]; simpl in *; [discriminate|assumption].
Qed.

Lemma parse_lines_raises (lines : list string) :
  forall acc e, parse_lines lines acc = Raise e ->
                exists x, e = ValueError (invalid_literal x).
Proof.
  induction lines as [|l rest IH]; intros acc e; simpl; [discriminate|].
  destruct (parse_line l) as [[p|]|e'] eqn:Hp.
  - apply IH.
  - apply IH.
  - intros [= <-]. eapply parse_line_raises. eassumption.
Qed.

(** X1: the parser answers "Invalid parted output" exactly when the
    listing, stripped of surrounding whitespace, has fewer than two line
    breaks. *)
Theorem parse_parted_output_too_short (output : string) :
  parse_parted_output output = Raise invalid_parted_output
  <-> (count_char "010" (Py.strip output) < 2)%nat.
Proof.
  unfold parse_parted_output. cbv zeta. rewrite split_length.
  destruct (S (count_char "010" (Py.strip output)) <? 3)%nat eqn:E.
  - apply Nat.ltb_lt in E. split; [lia | reflexivity].
  - apply Nat.ltb_ge in E. split; [|lia].
    destruct (nth_error _ 1); [|discriminate].
    destruct (parse_lines _ []) as [ps|e] eqn:Hp; [discriminate|].
    destruct (parse_lines_raises _ _ _ Hp) as [x ->].
    intros H. exfalso.
    apply (invalid_literal_not_format_error x). congruence.
Qed.

Lemma parse_lines_skip (a b : list string) (short : string) :
  data_line short = false ->
  forall acc, parse_lines (a ++ short :: b) acc = parse_lines (a ++ b) acc.
Proof.
  intros Hs. induction a as [|l a IH]; intros acc; simpl.
  - rewrite (parse_line_skip short Hs). reflexivity.
  - destruct (parse_line l) as [[p|]|e]; auto.
Qed.

(** X2: a line with fewer than five fields between the partition lines
    changes nothing: the parser gives the same answer as for the listing
    without it. *)
Theorem parse_parted_output_skips_short (o1 o2 h1 h2 short : string)
  (a b : list string) :
  lines_of o1 = (h1 :: h2 :: a ++ b)%list ->
  lines_of o2 = (h1 :: h2 :: a ++ short :: b)%list ->
  (a ++ b)%list <> [] ->
  data_line short = false ->
  parse_parted_output o2 = parse_parted_output o1.
Proof.
  intros H1 H2 Hne Hs.
  unfold parse_parted_output. cbv zeta.
  fold (lines_of o1). fold (lines_of o2). rewrite H1, H2.
  assert (L1 : (List.length (h1 :: h2 :: a ++ b) <? 3)%nat = false).
  { apply Nat.ltb_ge. destruct (a ++ b)%list; [congruence|simpl; lia]. }
  assert (L2 : (List.length (h1 :: h2 :: a ++ short :: b) <? 3)%nat = false).
  { apply Nat.ltb_ge. simpl. rewrite length_app. simpl. lia. }
  rewrite L1, L2. simpl nth. simpl skipn.
  rewrite (parse_lines_skip a b short Hs). reflexivity.
Qed.

Lemma parse_parted_output_skips_short_witness :
  parse_parted_output More.listing_with_blank
  = parse_parted_output Sample.listing.
Proof.
  apply (parse_parted_output_skips_short Sample.listing
           More.listing_with_blank
           "BYT;" "/dev/sda:10485760B:scsi:512:512:msdos:ATA Disk:;" ""
           ["1:0B:1048575B:1048576B:fat32::boot;"]
           ["2:1048576B:10485759B:9437184B:btrfs::;"]).
  - vm_compute. reflexivity.
  - vm_compute. reflexivity.
  - discriminate.
  - reflexivity.
Defined.

Lemma rstrip_all_space (s : string) :
  all_space s = true -> Py.rstrip_by Py.is_space s = EmptyString.
Proof.
  induction s as [|a r IH]; simpl; [reflexivity|].
  intros H. apply andb_true_iff in H. destruct H as [Ha Hr].
  rewrite (IH Hr), Ha. reflexivity.
Qed.

Lemma rstrip_app_space (s b : string) :
  all_space b = true ->
  Py.rstrip_by Py.is_space (s ++ b) = Py.rstrip_by Py.is_space s.
Proof.
  intros Hb. induction s as [|a r IH]; simpl.
  - apply rstrip_all_space. assumption.
  - rewrite IH. reflexivity.
Qed.

Lemma rstrip_empty_all_space (s : string) :
  Py.rstrip_by Py.is_space s = EmptyString -> all_space s = true.
Proof.
  induction s as [|a r IH]; simpl; [reflexivity|].
  destruct (Py.is_space a); simpl.
  - destruct (Py.rstrip_by Py.is_space r); simpl; [auto | discriminate].
  - discriminate.
Qed.

Lemma all_space_app (a b : string) :
  all_space a = true -> all_space b = true -> all_space (a ++ b) = true.
Proof.
  intros Ha Hb. induction a as [|c r IH]; simpl in *; [assumption|].
  apply andb_true_iff in Ha. destruct Ha as [Hc Hr].
  rewrite Hc. simpl. auto.
Qed.

Lemma lstrip_all_space (s : string) :
  all_space s = true -> Py.lstrip_by Py.is_space s = EmptyString.
Proof.
  induction s as [|a r IH]; simpl; [reflexivity|].
  intros H. apply andb_true_iff in H. destruct H as [Ha Hr].
  rewrite Ha. auto.
Qed.

Lemma rstrip_space_app (a s : string) :
  all_space a = true ->
  Py.rstrip_by Py.is_space s <> EmptyString ->
  Py.rstrip_by Py.is_space (a ++ s) = a ++ Py.rstrip_by Py.is_space s.
Proof.
  intros Ha Hs. induction a as [|c r IH]; simpl in *; [reflexivity|].
  apply andb_true_iff in Ha. destruct Ha as [Hc Hr].
  rewrite (IH Hr).
  destruct (r ++ Py.rstrip_by Py.is_space s) eqn:E.
  - destruct r; simpl in E; [contradiction | discriminate].
  - simpl. rewrite andb_false_r. reflexivity.
Qed.

Lemma lstrip_space_app (a s : string) :
  all_space a = true ->
  Py.lstrip_by Py.is_space (a ++ s) = Py.lstrip_by Py.is_space s.
Proof.
  intros Ha. induction a as [|c r IH]; simpl in *; [reflexivity|].
  apply andb_true_iff in Ha. destruct Ha as [Hc Hr].
  rewrite Hc. auto.
Qed.

Lemma strip_padding (a s b : string) :
  all_space a = true -> all_space b = true ->
  Py.strip (a ++ s ++ b) = Py.strip s.
Proof.
  intros Ha Hb. unfold Py.strip.
  destruct (Py.rstrip_by Py.is_space s) eqn:E.
  - assert (Hall : all_space (a ++ s ++ b) = true).
    { apply all_space_app; [assumption|].
      apply all_space_app; [|assumption].
      apply rstrip_empty_all_space. assumption. }
    rewrite (rstrip_all_space _ Hall). reflexivity.
  - rewrite <- E.
    assert (Hsb : Py.rstrip_by Py.is_space (s ++ b)
                  = Py.rstrip_by Py.is_space s)
      by (apply rstrip_app_space; assumption).
    rewrite rstrip_space_app; [|assumption|rewrite Hsb, E; discriminate].
    rewrite Hsb. apply lstrip_space_app. assumption.
Qed.

(** X3: whitespace in front of the listing and after it, such as the
    final line break of the tool, does not change what the parser
    returns. *)
Theorem parse_parted_output_padding (a output b : string) :
  all_space a = true -> all_space b = true ->
  parse_parted_output (a ++ output ++ b) = parse_parted_output output.
Proof.
  intros Ha Hb. unfold parse_parted_output.
  rewrite (strip_padding a output b Ha Hb). reflexivity.
Qed.

Lemma parse_parted_output_padding_witness :
  parse_parted_output (nl ++ Sample.listing ++ "  " ++ nl)
  = parse_parted_output Sample.listing.
Proof.
  apply (parse_parted_output_padding nl Sample.listing ("  " ++ nl));
    reflexivity.
Defined.

(** ** What the parser hands to its callers *)

Lemma rstrip_B_no_trailing (s : string) :
  ends_with "B" (Py.rstrip_B s) = false.
Proof.
  unfold Py.rstrip_B. induction s as [|a r IH]; simpl; [reflexivity|].
  destruct (Py.rstrip_by (fun c => Ascii.eqb c "B") r) as [|b r'] eqn:E.
  - simpl. destruct (Ascii.eqb a "B") eqn:Ea; simpl; [reflexivity|assumption].
  - rewrite andb_false_r. simpl. simpl in IH. assumption.
Qed.

Lemma parse_line_record (line : string) (p : partition) :
  parse_line line = Return (Some p) -> parsed_record p.
Proof.
  unfold parse_line. cbv zeta.
  destruct (List.length (Py.split ":" line) <? 5)%nat; [discriminate|].
  unfold to_int.
  destruct (Py.int (Py.rstrip_B (nth 2 (Py.split ":" line) ""))) as [e|];
    [|discriminate].
  destruct (Py.int (Py.rstrip_B (nth 1 (Py.split ":" line) ""))) as [s|] eqn:Hs;
    [|discriminate].
  intros [= <-]. unfold parsed_record. simpl.
  split; [apply rstrip_B_no_trailing|].
  split; [exists s; assumption|].
  exists (e - s). apply int_str.
Qed.

Lemma parse_lines_records (lines : list string) :
  forall acc ps,
    Forall parsed_record acc ->
    parse_lines lines acc = Return ps ->
    Forall parsed_record ps.
Proof.
  induction lines as [|l rest IH]; intros acc ps Hacc; simpl.
  - intros [= <-]. assumption.
  - destruct (parse_line l) as [[p|]|e] eqn:Hp; [| |discriminate].
    + apply IH. apply Forall_app. split; [assumption|].
      constructor; [|constructor]. eapply parse_line_record. eassumption.
    + apply IH. assumption.
Qed.

Lemma first_btrfs_in (partitions : list partition) (b : partition) :
  first_btrfs partitions = Some b -> In b partitions.
Proof.
  induction partitions as [|q rest IH]; simpl; [discriminate|].
  destruct (fs_type q =? "btrfs")%string.
  - intros [= ->]. left. reflexivity.
  - intros H. right. auto.
Qed.

(** X4: when the parser returns, the disk size and every start offset
    have lost their trailing [B], and start and size of every record read
    back as integers.  So the offset search on a parsed listing never
    fails in [int]: it returns an offset or reports that there is no btrfs
    partition. *)
Theorem parse_parted_output_records (output disk_size : string)
  (partitions : list partition) :
  parse_parted_output output = Return (disk_size, partitions) ->
  ends_with "B" disk_size = false
  /\ Forall parsed_record partitions
  /\ ((exists offset, get_btrfs_partition_offset partitions = Return offset)
      \/ get_btrfs_partition_offset partitions = Raise no_btrfs_found).
Proof.
  unfold parse_parted_output. cbv zeta.
  destruct (List.length _ <? 3)%nat; [discriminate|].
  destruct (nth_error _ 1) as [f|]; [|discriminate].
  destruct (parse_lines _ []) as [ps|e] eqn:Hp; [|discriminate].
  intros [= <- <-].
  assert (Hrec : Forall parsed_record ps)
    by (eapply parse_lines_records; [constructor | eassumption]).
  split; [apply rstrip_B_no_trailing|]. split; [assumption|].
  unfold get_btrfs_partition_offset.
  destruct (first_btrfs ps) as [b|] eqn:Hb; [|right; reflexivity].
  left. apply first_btrfs_in in Hb.
  rewrite Forall_forall in Hrec. destruct (Hrec b Hb) as [_ [[s Hs] _]].
  exists s. unfold to_int. rewrite Hs. reflexivity.
Qed.

Lemma parse_parted_output_records_witness :
  ends_with "B" "10485760" = false
  /\ Forall parsed_record
       [ Partition "1" "1048575" "0" "fat32";
         Partition "2" "9437183" "1048576" "btrfs" ]
  /\ ((exists offset,
          get_btrfs_partition_offset
            [ Partition "1" "1048575" "0" "fat32";
              Partition "2" "9437183" "1048576" "btrfs" ] = Return offset)
      \/ get_btrfs_partition_offset
           [ Partition "1" "1048575" "0" "fat32";
             Partition "2" "9437183" "1048576" "btrfs" ]
         = Raise no_btrfs_found).
Proof.
  apply (parse_parted_output_records Sample.listing).
  vm_compute. reflexivity.
Defined.

Lemma first_btrfs_none (partitions : list partition) :
  first_btrfs partitions = None
  <-> Forall (fun q => fs_type q <> "btrfs") partitions.
Proof.
  induction partitions as [|q rest IH]; simpl.
  - split; [constructor | reflexivity].
  - destruct (String.eqb_spec (fs_type q) "btrfs") as [E|E].
    + split; [discriminate|]. intros H. inversion H. contradiction.
    + rewrite IH. split.
      * intros H. constructor; assumption.
      * intros H. inversion H. assumption.
Qed.

(** X5: the offset search reports "No btrfs partition found on the
    device." exactly when no partition has the filesystem type [btrfs],
    spelled exactly so. *)
Theorem get_btrfs_partition_offset_none (partitions : list partition) :
  get_btrfs_partition_offset partitions = Raise no_btrfs_found
  <-> Forall (fun q => fs_type q <> "btrfs") partitions.
Proof.
  rewrite <- first_btrfs_none. unfold get_btrfs_partition_offset.
  destruct (first_btrfs partitions) as [b|].
  - split; [|discriminate]. unfold to_int.
    destruct (Py.int (start b)); [discriminate|].
    unfold no_btrfs_found, invalid_literal. simpl. discriminate.
  - split; reflexivity.
Qed.

(** ** Device paths *)

Lemma list_ascii_app (a b : string) :
  list_ascii_of_string (a ++ b)
  = (list_ascii_of_string a ++ list_ascii_of_string b)%list.
Proof. induction a; simpl; congruence. Qed.

Lemma append_inv_tail (a b c : string) : a ++ c = b ++ c -> a = b.
Proof.
  intros H. apply (f_equal list_ascii_of_string) in H.
  rewrite !list_ascii_app in H. apply app_inv_tail in H.
  rewrite <- (string_of_list_ascii_of_string a),
          <- (string_of_list_ascii_of_string b).
  congruence.
Qed.

Lemma prefix_app (p s x : string) :
  String.prefix p s = true -> String.prefix p (s ++ x) = true.
Proof.
  revert s. induction p as [|c p IH]; intros s H.
  - destruct (s ++ x); reflexivity.
  - destruct s as [|d s]; simpl in *; [discriminate|].
    destruct (ascii_dec c d); [auto | discriminate].
Qed.

Lemma p_style_app (device x : string) :
  p_style device = true -> p_style (device ++ x) = true.
Proof.
  unfold p_style, Py.startswith. intros H.
  apply orb_true_iff in H. apply orb_true_iff.
  destruct H as [H|H]; [left|right]; apply prefix_app; assumption.
Qed.

(** X6: for one partition number, different devices never get the same
    partition path.  The path does not tell device and number apart,
    though: [/dev/sda] with number 11 and [/dev/sda1] with number 1 share
    one. *)
Theorem get_partition_device_device_inj (d1 d2 part_num : string) :
  d1 <> d2 ->
  get_partition_device d1 part_num <> get_partition_device d2 part_num
  /\ get_partition_device "/dev/sda" "11" = get_partition_device "/dev/sda1" "1".
Proof.
  intros Hne. split; [|reflexivity]. intros H. apply Hne. revert H.
  unfold get_partition_device. fold (p_style d1). fold (p_style d2).
  destruct (p_style d1) eqn:E1; destruct (p_style d2) eqn:E2; intros H.
  - eapply append_inv_tail. eassumption.
  - change (d1 ++ "p" ++ part_num) with (d1 ++ ("p" ++ part_num)) in H.
    rewrite <- append_assoc in H. apply append_inv_tail in H.
    subst d2. rewrite (p_style_app d1 "p" E1) in E2. discriminate.
  - change (d2 ++ "p" ++ part_num) with (d2 ++ ("p" ++ part_num)) in H.
    rewrite <- append_assoc in H. apply append_inv_tail in H.
    subst d1. rewrite (p_style_app d2 "p" E2) in E1. discriminate.
  - eapply append_inv_tail. eassumption.
Qed.

Lemma get_partition_device_device_inj_witness :
  get_partition_device "/dev/mmcblk0" "1" <> get_partition_device "/dev/sda" "1"
  /\ get_partition_device "/dev/sda" "11" = get_partition_device "/dev/sda1" "1".
Proof.
  apply (get_partition_device_device_inj "/dev/mmcblk0" "/dev/sda" "1").
  discriminate.
Defined.

(** ** The initializer, step by step *)

Lemma recv_loop_events (path : string) (pending : list string) :
  forall pos w t, exists ws,
    recv_loop path pending pos w t = (Return tt, (t ++ ws)%list)
    /\ written_to path ws = String.concat "" (received pending)
    /\ contiguous path pos ws = true
    /\ Forall (is_write path) ws.
Proof.
  induction pending as [|data rest IH]; intros pos w t.
  - exists []. simpl. rewrite app_nil_r. repeat split. constructor.
  - change (recv_loop path (data :: rest) pos)
      with (if Py.is_empty data then ret tt
            else emit (Write path pos data) ;;;
                 recv_loop path rest (pos + Z.of_nat (String.length data))).
    simpl received. destruct (Py.is_empty data).
    + exists []. simpl. rewrite app_nil_r. repeat split. constructor.
    + rewrite bind_emit.
      destruct (IH (pos + Z.of_nat (String.length data)) w
                  (t ++ [Write path pos data])%list)
        as [ws [Hr [Hw [Hc Hf]]]].
      exists (Write path pos data :: ws). rewrite Hr.
      split; [rewrite <- app_assoc; reflexivity|].
      split; [|split].
      * rewrite concat_cons. simpl. rewrite String.eqb_refl, Hw. reflexivity.
      * simpl. rewrite String.eqb_refl, Z.eqb_refl, Hc. reflexivity.
      * constructor; [|assumption]. exists pos, data. reflexivity.
Qed.

(** X7: when the remote listing shows no partition, the initializer
    raises "No partitions found on the device." and has done nothing but
    ask for the listing. *)
Theorem create_initial_image_no_partitions (device output_file : string)
  (w : world) (t : trace) (disk_size : string) :
  parse_parted_output (read_stdout (exec_result w t (parted_line device)))
  = Return (disk_size, []) ->
  create_initial_image device output_file w t
  = (Raise no_partitions_found, (t ++ [Exec (parted_line device)])%list).
Proof.
  intros H. unfold create_initial_image. unfold bind.
  rewrite get_partitions_ssh_parses, H. reflexivity.
Qed.

Lemma create_initial_image_no_partitions_witness :
  create_initial_image Sample.device Sample.image More.no_partitions []
  = (Raise no_partitions_found, [Exec (parted_line Sample.device)]).
Proof.
  apply (create_initial_image_no_partitions Sample.device Sample.image
           More.no_partitions [] "10485760").
  vm_compute. reflexivity.
Defined.

(** X8: when [blkid] prints nothing but whitespace, the initializer raises
    "Failed to get UUID of the btrfs partition." after the listing and the
    [blkid]: the first partition is not remounted and no file is
    touched. *)
Theorem create_initial_image_no_uuid (device output_file : string)
  (w : world) (t : trace) (disk_size : string) (p : partition)
  (ps : list partition) :
  let t1 := (t ++ [Exec (parted_line device)])%list in
  parse_parted_output (read_stdout (exec_result w t (parted_line device)))
  = Return (disk_size, p :: ps) ->
  all_space (read_stdout (exec_result w t1 (blkid_line device))) = true ->
  create_initial_image device output_file w t
  = (Raise no_uuid_found, (t1 ++ [Exec (blkid_line device)])%list).
Proof.
  cbv zeta. intros H Hu. unfold create_initial_image. unfold bind at 1.
  rewrite get_partitions_ssh_parses, H. rewrite bind_exec.
  unfold Py.strip. rewrite (rstrip_all_space _ Hu). reflexivity.
Qed.

Lemma create_initial_image_no_uuid_witness :
  create_initial_image Sample.device Sample.image More.no_uuid []
  = (Raise no_uuid_found,
     [Exec (parted_line Sample.device); Exec (blkid_line Sample.device)]).
Proof.
  apply (create_initial_image_no_uuid Sample.device Sample.image
           More.no_uuid [] "10485760"
           (Partition "1" "1048575" "0" "fat32")
           [Partition "2" "9437183" "1048576" "btrfs"]).
  - vm_compute. reflexivity.
  - vm_compute. reflexivity.
Defined.

Lemma is_empty_false (s : string) : Py.is_empty s = false <-> s <> EmptyString.
Proof.
  destruct s; simpl; split; congruence.
Qed.

(** The initializer up to the creation of the file. *)
Lemma create_initial_image_until_create (device output_file : string)
  (w : world) (t : trace) (disk_size : string) (p : partition)
  (ps : list partition) :
  let t1 := (t ++ [Exec (parted_line device)])%list in
  let uuid := Py.strip (read_stdout (exec_result w t1 (blkid_line device))) in
  parse_parted_output (read_stdout (exec_result w t (parted_line device)))
  = Return (disk_size, p :: ps) ->
  uuid <> EmptyString ->
  create_initial_image device output_file w t
  = (length <- lift (to_int disk_size) ;;
     truncate output_file length ;;;
     btrfs_start <- lift (get_btrfs_partition_offset (p :: ps)) ;;
     ch <- exec_command (copy_command device btrfs_start) ;;
     recv_loop output_file (chunks ch) 0 ;;;
     make_filesystem output_file uuid) w
      (t ++ [ Exec (parted_line device); Exec (blkid_line device);
              Exec (remount_line device); Create output_file ])%list.
Proof.
  cbv zeta. intros H Hu. unfold create_initial_image. unfold bind at 1.
  rewrite get_partitions_ssh_parses, H. rewrite bind_exec.
  apply is_empty_false in Hu. rewrite Hu.
  rewrite bind_exec, bind_emit.
  rewrite <- !app_assoc. reflexivity.
Qed.

(** X9: a listing whose disk size is no number stops the initializer
    with the [ValueError] of [int] only after the first partition was
    remounted read-only and the output file was opened for writing, which
    creates it empty. *)
Theorem create_initial_image_unsized (device output_file : string)
  (w : world) (t : trace) (disk_size : string) (p : partition)
  (ps : list partition) :
  let t1 := (t ++ [Exec (parted_line device)])%list in
  parse_parted_output (read_stdout (exec_result w t (parted_line device)))
  = Return (disk_size, p :: ps) ->
  Py.strip (read_stdout (exec_result w t1 (blkid_line device)))
  <> EmptyString ->
  Py.int disk_size = None ->
  create_initial_image device output_file w t
  = (Raise (ValueError (invalid_literal disk_size)),
     (t ++ [ Exec (parted_line device); Exec (blkid_line device);
             Exec (remount_line device); Create output_file ])%list).
Proof.
  cbv zeta. intros H Hu Hn.
  rewrite (create_initial_image_until_create device output_file w t
             disk_size p ps H Hu).
  rewrite bind_lift. unfold to_int. rewrite Hn. reflexivity.
Qed.

Lemma create_initial_image_unsized_witness :
  create_initial_image Sample.device Sample.image More.unsized []
  = (Raise (ValueError (invalid_literal "unknown")),
     [ Exec (parted_line Sample.device); Exec (blkid_line Sample.device);
       Exec (remount_line Sample.device); Create Sample.image ]).
Proof.
  apply (create_initial_image_unsized Sample.device Sample.image
           More.unsized [] "unknown"
           (Partition "1" "1048575" "0" "fat32")
           [Partition "2" "9437183" "1048576" "btrfs"]).
  - vm_compute. reflexivity.
  - vm_compute. discriminate.
  - vm_compute. reflexivity.
Defined.

(** X10: when no partition of the listing is btrfs, the initializer
    raises "No btrfs partition found on the device." only after it has
    remounted the first partition read-only and created the output file
    with the size of the disk; no copy is started and no loop device is
    bound. *)
Theorem create_initial_image_no_btrfs (device output_file : string)
  (w : world) (t : trace) (disk_size : string) (p : partition)
  (ps : list partition) (length : Z) :
  let t1 := (t ++ [Exec (parted_line device)])%list in
  parse_parted_output (read_stdout (exec_result w t (parted_line device)))
  = Return (disk_size, p :: ps) ->
  Py.strip (read_stdout (exec_result w t1 (blkid_line device)))
  <> EmptyString ->
  Py.int disk_size = Some length ->
  0 <= length ->
  Forall (fun q => fs_type q <> "btrfs") (p :: ps) ->
  create_initial_image device output_file w t
  = (Raise no_btrfs_found,
     (t ++ [ Exec (parted_line device); Exec (blkid_line device);
             Exec (remount_line device); Create output_file;
             Truncate output_file length ])%list).
Proof.
  cbv zeta. intros H Hu Hn Hpos Hall.
  rewrite (create_initial_image_until_create device output_file w t
             disk_size p ps H Hu).
  rewrite bind_lift. unfold to_int. rewrite Hn.
  unfold truncate. apply Z.ltb_ge in Hpos. rewrite Hpos.
  rewrite bind_emit, bind_lift.
  unfold get_btrfs_partition_offset.
  rewrite (proj2 (first_btrfs_none (p :: ps)) Hall).
  rewrite <- !app_assoc. reflexivity.
Qed.

Lemma create_initial_image_no_btrfs_witness :
  create_initial_image Sample.device Sample.image More.no_btrfs []
  = (Raise no_btrfs_found,
     [ Exec (parted_line Sample.device); Exec (blkid_line Sample.device);
       Exec (remount_line Sample.device); Create Sample.image;
       Truncate Sample.image 10485760 ]).
Proof.
  apply (create_initial_image_no_btrfs Sample.device Sample.image
           More.no_btrfs [] "10485760"
           (Partition "1" "1048575" "0" "fat32")
           [Partition "2" "9437183" "1048576" "ext4"] 10485760).
  - vm_compute. reflexivity.
  - vm_compute. discriminate.
  - vm_compute. reflexivity.
  - lia.
  - repeat constructor; simpl; discriminate.
Defined.

(** X11: when the initializer returns normally, this is all it did, in
    this order: the remote listing, the [blkid], the read-only remount,
    the creation of the file with the size of the disk, the [dd] for the
    whole blocks in front of the first btrfs partition, the writes, and
    bind, [mkfs.btrfs] with the UUID read before, and detach.  The writes
    put what the channel delivered up to its first empty piece into the
    file, from position 0 on and without a hole. *)
Theorem create_initial_image_success (device output_file : string)
  (w : world) (t : trace) :
  fst (create_initial_image device output_file w t) = Return tt ->
  exists disk_size partitions length offset writes,
    let t1 := (t ++ [Exec (parted_line device)])%list in
    let uuid := Py.strip (read_stdout (exec_result w t1 (blkid_line device))) in
    let t5 := (t ++ [ Exec (parted_line device); Exec (blkid_line device);
                      Exec (remount_line device); Create output_file;
                      Truncate output_file length ])%list in
    let ch := exec_result w t5 (copy_command device offset) in
    parse_parted_output (read_stdout (exec_result w t (parted_line device)))
    = Return (disk_size, partitions)
    /\ uuid <> EmptyString
    /\ Py.int disk_size = Some length /\ 0 <= length
    /\ get_btrfs_partition_offset partitions = Return offset
    /\ snd (create_initial_image device output_file w t)
       = (t5 ++ [Exec (copy_command device offset)] ++ writes
             ++ [ Run (losetup_bind output_file); Run (mkfs_btrfs uuid);
                  Run losetup_detach ])%list
    /\ Forall (is_write output_file) writes
    /\ written_to output_file writes = String.concat "" (received (chunks ch))
    /\ contiguous output_file 0 writes = true.
Proof.
  destruct (create_initial_image device output_file w t) as [r tr] eqn:E.
  simpl. intros ->. revert E.
  unfold create_initial_image. unfold bind at 1.
  rewrite get_partitions_ssh_parses.
  destruct (parse_parted_output _) as [[disk_size partitions]|e] eqn:Hp;
    [|discriminate].
  destruct partitions as [|p ps]; [discriminate|].
  rewrite bind_exec.
  destruct (Py.is_empty _) eqn:Hu; [discriminate|].
  rewrite bind_exec, bind_emit, bind_lift. unfold to_int at 1.
  destruct (Py.int disk_size) as [n|] eqn:Hn; [|discriminate].
  unfold truncate.
  destruct (n <? 0) eqn:Hneg; [discriminate|].
  rewrite bind_emit, bind_lift.
  destruct (get_btrfs_partition_offset (p :: ps)) as [off|e] eqn:Ho;
    [|discriminate].
  rewrite bind_exec. unfold bind at 1.
  match goal with
  | |- context [ recv_loop output_file ?c 0 w ?t0 ] =>
      destruct (recv_loop_events output_file c 0 w t0)
        as [ws [Hr [Hw [Hc Hf]]]]
  end.
  rewrite Hr.
  rewrite make_filesystem_outcome. cbv zeta.
  destruct (negb _); [discriminate|].
  destruct (negb _); [discriminate|].
  destruct (negb _); [discriminate|].
  intros [= <-].
  exists disk_size, (p :: ps), n, off, ws. cbv zeta.
  split; [reflexivity|].
  split; [apply is_empty_false; exact Hu|].
  split; [assumption|].
  split; [apply Z.ltb_ge; assumption|].
  split; [assumption|].
  split; [rewrite <- !app_assoc; reflexivity|].
  split; [assumption|].
  split; [|assumption].
  rewrite Hw, <- !app_assoc. reflexivity.
Qed.

Lemma create_initial_image_success_witness :
  exists disk_size partitions length offset writes,
    let t1 := ([] ++ [Exec (parted_line Sample.device)])%list in
    let uuid := Py.strip (read_stdout (exec_result Sample.unaligned t1
                                         (blkid_line Sample.device))) in
    let t5 := ([] ++ [ Exec (parted_line Sample.device);
                       Exec (blkid_line Sample.device);
                       Exec (remount_line Sample.device);
                       Create Sample.image;
                       Truncate Sample.image length ])%list in
    let ch := exec_result Sample.unaligned t5
                (copy_command Sample.device offset) in
    parse_parted_output
      (read_stdout (exec_result Sample.unaligned [] (parted_line Sample.device)))
    = Return (disk_size, partitions)
    /\ uuid <> EmptyString
    /\ Py.int disk_size = Some length /\ 0 <= length
    /\ get_btrfs_partition_offset partitions = Return offset
    /\ snd (create_initial_image Sample.device Sample.image
              Sample.unaligned [])
       = (t5 ++ [Exec (copy_command Sample.device offset)] ++ writes
             ++ [ Run (losetup_bind Sample.image); Run (mkfs_btrfs uuid);
                  Run losetup_detach ])%list
    /\ Forall (is_write Sample.image) writes
    /\ written_to Sample.image writes = String.concat "" (received (chunks ch))
    /\ contiguous Sample.image 0 writes = true.
Proof.
  apply (create_initial_image_success Sample.device Sample.image
           Sample.unaligned []).
  vm_compute. reflexivity.
Defined.

(** ** The backup session, step by step *)

Lemma select_newest_cases (subvolume : string) (lines : list string) :
  match candidates subvolume lines with
  | [] => select_newest subvolume lines = Raise no_snapshots
  | _ :: _ =>
      exists n, select_newest subvolume lines = Return n
                /\ greatest (candidates subvolume lines) n
  end.
Proof.
  unfold select_newest. cbv zeta. rewrite select_step_pick.
  pose proof (pick_from_none _ (candidates_nonempty subvolume lines)) as H.
  destruct (candidates subvolume lines) as [|c cs].
  - rewrite H. reflexivity.
  - destruct H as [n [Hn [Hnn Hg]]]. exists n. rewrite Hn. simpl.
    rewrite Hnn. split; [reflexivity | assumption].
Qed.

Lemma select_newest_return (subvolume : string) (lines : list string)
  (n : string) :
  select_newest subvolume lines = Return n ->
  greatest (candidates subvolume lines) n.
Proof.
  intros H. pose proof (select_newest_cases subvolume lines) as Hc.
  destruct (candidates subvolume lines) as [|c cs].
  - rewrite H in Hc. discriminate.
  - destruct Hc as [m [Hm Hg]]. congruence.
Qed.

Lemma bind_return {A B} (m : M A) (k : A -> M B) (w : world) (t : trace)
  (b : B) :
  fst (bind m k w t) = Return b ->
  exists a, fst (m w t) = Return a /\ bind m k w t = k a w (snd (m w t)).
Proof.
  unfold bind. destruct (m w t) as [[a|e] t']; simpl; [|discriminate].
  intros _. exists a. split; reflexivity.
Qed.

Lemma run_backup_setup_return (device output_file subvolume : string)
  (w : world) (t : trace) :
  fst (run_backup_setup device output_file subvolume w t) = Return tt ->
  let t3 := (t ++ [ Run (parted_argv output_file);
                    Run (losetup_bind output_file);
                    Run local_mount ])%list in
  snd (run_backup_setup device output_file subvolume w t)
  = (t3 ++ [ Exec (remote_mount_line device);
             Print (errors (exec_result w t3 (remote_mount_line device)));
             WriteText config_file (btrbk_config (peername w) subvolume) ])%list.
Proof.
  cbv zeta.
  destruct (run_backup_setup device output_file subvolume w t)
    as [r tr] eqn:E.
  simpl. intros ->. revert E.
  unfold run_backup_setup, get_partitions_local.
  rewrite bind_assoc, bind_run.
  destruct (negb _); [discriminate|].
  rewrite bind_lift. destruct (parse_parted_output _); [|discriminate].
  rewrite bind_run_check. destruct (negb _); [discriminate|].
  rewrite bind_run_check. destruct (negb _); [discriminate|].
  rewrite bind_exec, bind_emit.
  unfold bind, getpeername, emit. intros [= <-].
  rewrite <- !app_assoc. reflexivity.
Qed.

Lemma run_backup_try_return (subvolume : string) (w : world) (t : trace) :
  fst (run_backup_try subvolume w t) = Return tt ->
  let t2 := (t ++ [Run btrbk; Run (subvolume_delete subvolume)])%list in
  let listing := stdout (run_result w t2 subvolume_list) in
  exists newest,
    greatest (candidates subvolume (lines_of listing)) newest
    /\ snd (run_backup_try subvolume w t)
       = (t2 ++ [ Run subvolume_list;
                  Run (subvolume_snapshot newest subvolume);
                  Run (subvolume_set_default subvolume) ])%list.
Proof.
  cbv zeta.
  destruct (run_backup_try subvolume w t) as [r tr] eqn:E.
  simpl. intros ->. revert E.
  unfold run_backup_try.
  rewrite bind_run_check. destruct (negb _); [discriminate|].
  rewrite bind_run, bind_run.
  destruct (negb _); [discriminate|].
  rewrite bind_lift.
  destruct (select_newest subvolume _) as [newest|e] eqn:Hs; [|discriminate].
  rewrite bind_run_check. destruct (negb _); [discriminate|].
  rewrite bind_run_check. destruct (negb _); [discriminate|].
  intros [= <-]. exists newest. split.
  - apply select_newest_return in Hs. unfold lines_of.
    rewrite <- !app_assoc in Hs. exact Hs.
  - rewrite <- !app_assoc. reflexivity.
Qed.

Lemma run_backup_finally_return (w : world) (t : trace) :
  fst (run_backup_finally w t) = Return tt ->
  snd (run_backup_finally w t)
  = (t ++ [Run (Shell umount_line); Run losetup_detach; Exec umount_line])%list.
Proof.
  rewrite run_backup_finally_outcome. cbv zeta.
  destruct (negb _); [discriminate|].
  destruct (negb _); [discriminate|].
  intros _. simpl. rewrite <- !app_assoc. reflexivity.
Qed.

(** X12: when [run_backup] returns normally, this is all that happened,
    in this order: local probe, loop bind, local mount, remote mount with
    its error stream printed, the configuration written, the sync engine,
    the deletion of the old subvolume, the listing, a snapshot of the
    greatest listed name that starts with the subvolume name and a dot,
    set-default, and the three release steps, once each. *)
Theorem run_backup_success (device output_file subvolume : string)
  (w : world) (t : trace) :
  fst (run_backup device output_file subvolume w t) = Return tt ->
  let t3 := (t ++ [ Run (parted_argv output_file);
                    Run (losetup_bind output_file);
                    Run local_mount ])%list in
  let t6 := (t3 ++ [ Exec (remote_mount_line device);
                     Print (errors (exec_result w t3
                                      (remote_mount_line device)));
                     WriteText config_file
                       (btrbk_config (peername w) subvolume) ])%list in
  let t8 := (t6 ++ [Run btrbk; Run (subvolume_delete subvolume)])%list in
  let listing := stdout (run_result w t8 subvolume_list) in
  exists newest,
    greatest (candidates subvolume (lines_of listing)) newest
    /\ snd (run_backup device output_file subvolume w t)
       = (t8 ++ [ Run subvolume_list;
                  Run (subvolume_snapshot newest subvolume);
                  Run (subvolume_set_default subvolume);
                  Run (Shell umount_line);
                  Run losetup_detach;
                  Exec umount_line ])%list.
Proof.
  cbv zeta. intros H. unfold run_backup in *.
  destruct (bind_return _ _ w t tt H) as [[] [Hsetup Heq]].
  rewrite Heq in *. clear Heq.
  rewrite (run_backup_setup_return device output_file subvolume w t Hsetup)
    in *.
  cbv zeta in *.
  match type of H with
  | fst (try_finally _ _ w ?t6) = _ => set (t6' := t6) in *
  end.
  unfold try_finally in *.
  destruct (run_backup_try subvolume w t6') as [r t11] eqn:Etry.
  destruct (run_backup_finally w t11) as [[[]|e] t14] eqn:Efin;
    simpl in H; [|discriminate].
  subst r.
  assert (Htry : fst (run_backup_try subvolume w t6') = Return tt)
    by (rewrite Etry; reflexivity).
  destruct (run_backup_try_return subvolume w t6' Htry) as [newest [Hg Ht]].
  cbv zeta in Hg, Ht. rewrite Etry in Ht. simpl in Ht.
  assert (Hfin : fst (run_backup_finally w t11) = Return tt)
    by (rewrite Efin; reflexivity).
  pose proof (run_backup_finally_return w t11 Hfin) as Ht'.
  rewrite Efin in Ht'. simpl in Ht'.
  exists newest. split; [exact Hg|].
  simpl. rewrite Ht', Ht. rewrite <- !app_assoc. reflexivity.
Qed.

Lemma run_backup_success_witness :
  exists newest,
    greatest
      (candidates "@"
         (lines_of
            (stdout
               (run_result Sample.healthy
                  ((([] ++ [ Run (parted_argv Sample.image);
                             Run (losetup_bind Sample.image);
                             Run local_mount ])
                      ++ [ Exec (remote_mount_line Sample.device);
                           Print (errors
                                    (exec_result Sample.healthy
                                       ([] ++ [ Run (parted_argv Sample.image);
                                                Run (losetup_bind Sample.image);
                                                Run local_mount ])
                                       (remote_mount_line Sample.device)));
                           WriteText config_file
                             (btrbk_config (peername Sample.healthy) "@") ])
                     ++ [Run btrbk; Run (subvolume_delete "@")])%list
                  subvolume_list)))) newest
    /\ snd (run_backup Sample.device Sample.image "@" Sample.healthy [])
       = [ Run (parted_argv Sample.image);
           Run (losetup_bind Sample.image);
           Run local_mount;
           Exec (remote_mount_line Sample.device);
           Print "";
           WriteText config_file (btrbk_config "192.0.2.7" "@");
           Run btrbk;
           Run (subvolume_delete "@");
           Run subvolume_list;
           Run (subvolume_snapshot newest "@");
           Run (subvolume_set_default "@");
           Run (Shell umount_line);
           Run losetup_detach;
           Exec umount_line ].
Proof.
  apply (run_backup_success Sample.device Sample.image "@" Sample.healthy []).
  vm_compute. reflexivity.
Defined.

(** X13: when the sync engine succeeded and the listing of subvolumes
    exits non-zero, the rotation raises a [RuntimeError] that carries the
    error stream of the listing.  The deletion of the old subvolume was
    run before, and its exit status plays no part; no snapshot is
    taken. *)
Theorem run_backup_try_list_failed (subvolume : string) (w : world)
  (t : trace) :
  let t2 := (t ++ [Run btrbk; Run (subvolume_delete subvolume)])%list in
  let r := run_result w t2 subvolume_list in
  returncode (run_result w t btrbk) = 0 ->
  returncode r <> 0 ->
  run_backup_try subvolume w t
  = (Raise (RuntimeError ("Failed to list btrfs subvolumes: " ++ stderr r)),
     (t2 ++ [Run subvolume_list])%list).
Proof.
  cbv zeta. intros Hsync Hlist. unfold run_backup_try.
  rewrite bind_run_check, Hsync. change (negb (0 =? 0)) with false. cbv iota.
  rewrite bind_run, bind_run.
  replace ((t ++ [Run btrbk]) ++ [Run (subvolume_delete subvolume)])%list
    with (t ++ [Run btrbk; Run (subvolume_delete subvolume)])%list
    by (rewrite <- app_assoc; reflexivity).
  apply Z.eqb_neq in Hlist. rewrite Hlist. reflexivity.
Qed.

Lemma run_backup_try_list_failed_witness :
  run_backup_try "@" More.list_fails []
  = (Raise (RuntimeError
              "Failed to list btrfs subvolumes: ERROR: not a btrfs filesystem"),
     [Run btrbk; Run (subvolume_delete "@"); Run subvolume_list]).
Proof.
  apply (run_backup_try_list_failed "@" More.list_fails []).
  - reflexivity.
  - vm_compute. discriminate.
Defined.

(** X14: when the sync engine and the listing succeeded and no listed
    name starts with the subvolume name and a dot, the rotation raises
    "No snapshots found." right after the listing: the old subvolume is
    already deleted and no new one is created. *)
Theorem run_backup_try_no_snapshot (subvolume : string) (w : world)
  (t : trace) :
  let t2 := (t ++ [Run btrbk; Run (subvolume_delete subvolume)])%list in
  let r := run_result w t2 subvolume_list in
  returncode (run_result w t btrbk) = 0 ->
  returncode r = 0 ->
  candidates subvolume (lines_of (stdout r)) = [] ->
  run_backup_try subvolume w t
  = (Raise no_snapshots, (t2 ++ [Run subvolume_list])%list).
Proof.
  cbv zeta. intros Hsync Hlist Hc. unfold run_backup_try.
  rewrite bind_run_check, Hsync. change (negb (0 =? 0)) with false. cbv iota.
  rewrite bind_run, bind_run.
  replace ((t ++ [Run btrbk]) ++ [Run (subvolume_delete subvolume)])%list
    with (t ++ [Run btrbk; Run (subvolume_delete subvolume)])%list
    by (rewrite <- app_assoc; reflexivity).
  rewrite Hlist. change (negb (0 =? 0)) with false. cbv iota.
  rewrite bind_lift.
  pose proof (select_newest_cases subvolume
                (lines_of (stdout (run_result w
                   (t ++ [Run btrbk; Run (subvolume_delete subvolume)])%list
                   subvolume_list)))) as Hs.
  rewrite Hc in Hs. unfold lines_of in Hs. rewrite Hs. reflexivity.
Qed.

Lemma run_backup_try_no_snapshot_witness :
  run_backup_try "@" More.no_snapshot_listed []
  = (Raise no_snapshots,
     [Run btrbk; Run (subvolume_delete "@"); Run subvolume_list]).
Proof.
  apply (run_backup_try_no_snapshot "@" More.no_snapshot_listed []).
  - reflexivity.
  - reflexivity.
  - vm_compute. reflexivity.
Defined.

(** ** More on the snapshot selector *)

Lemma in_candidates (subvolume : string) (lines : list string) (n : string) :
  In n (candidates subvolume lines)
  <-> exists l, In l lines /\ listed_name l = Some n
                /\ Py.startswith n (subvolume ++ ".") = true.
Proof.
  unfold candidates, listed_names. rewrite filter_In, in_flat_map. split.
  - intros [[l [Hl Hn]] Hp]. exists l.
    destruct (listed_name l) as [m|]; simpl in Hn; [|contradiction].
    destruct Hn as [->|[]]. auto.
  - intros [l [Hl [Hn Hp]]]. split; [|assumption].
    exists l. rewrite Hn. simpl. auto.
Qed.

(** X15: the selector looks at the set of lines only: their order and
    repetitions do not change the name it returns, nor whether it
    raises. *)
Theorem select_newest_same_lines (subvolume : string)
  (lines lines' : list string) :
  (forall l, In l lines <-> In l lines') ->
  select_newest subvolume lines = select_newest subvolume lines'.
Proof.
  intros Hsame.
  assert (Hc : forall n, In n (candidates subvolume lines)
                         <-> In n (candidates subvolume lines')).
  { intros n. rewrite !in_candidates. split; intros [l [Hl H]]; exists l;
      (split; [apply Hsame; assumption | assumption]). }
  pose proof (select_newest_cases subvolume lines) as H1.
  pose proof (select_newest_cases subvolume lines') as H2.
  destruct (candidates subvolume lines) as [|c cs] eqn:E1;
    destruct (candidates subvolume lines') as [|c' cs'] eqn:E2.
  - congruence.
  - exfalso. apply (proj2 (Hc c')). left. reflexivity.
  - exfalso. apply (proj1 (Hc c)). left. reflexivity.
  - destruct H1 as [n [Hn [Hin Hmax]]]. destruct H2 as [n' [Hn' [Hin' Hmax']]].
    rewrite Hn, Hn'. f_equal.
    rewrite Forall_forall in Hmax, Hmax'.
    apply String.leb_antisym.
    + apply Hmax'. apply Hc. assumption.
    + apply Hmax. apply Hc. assumption.
Qed.

Lemma select_newest_same_lines_witness :
  select_newest "@"
    [ "ID 256 gen 12 top level 5 path @.20250101T0000";
      "ID 257 gen 14 top level 5 path @.20250831T0152";
      "ID 258 gen 13 top level 5 path @.20250601T1200" ]
  = select_newest "@"
      [ "ID 258 gen 13 top level 5 path @.20250601T1200";
        "ID 257 gen 14 top level 5 path @.20250831T0152";
        "ID 257 gen 14 top level 5 path @.20250831T0152";
        "ID 256 gen 12 top level 5 path @.20250101T0000" ].
Proof.
  apply (select_newest_same_lines "@").
  intros l. simpl. tauto.
Defined.

Lemma candidates_app (subvolume : string) (a b : list string) :
  candidates subvolume (a ++ b)
  = (candidates subvolume a ++ candidates subvolume b)%list.
Proof.
  unfold candidates, listed_names. rewrite flat_map_app, filter_app.
  reflexivity.
Qed.

(** X16: lines with fewer than nine fields, and lines that name
    something else than a snapshot of the subvolume, can be added or removed
    without changing the answer of the selector. *)
Theorem select_newest_irrelevant (subvolume line : string)
  (a b : list string) :
  irrelevant subvolume line = true ->
  select_newest subvolume (a ++ line :: b) = select_newest subvolume (a ++ b).
Proof.
  intros H. unfold select_newest. cbv zeta. rewrite !select_step_pick.
  assert (Hc : candidates subvolume (a ++ line :: b)
               = candidates subvolume (a ++ b)).
  { rewrite !candidates_app. f_equal.
    change (line :: b) with ([line] ++ b)%list. rewrite candidates_app.
    assert (Hl : candidates subvolume [line] = []).
    { unfold candidates, listed_names, irrelevant in *. simpl.
      destruct (listed_name line) as [n|]; simpl; [|reflexivity].
      apply negb_true_iff in H. rewrite H. reflexivity. }
    rewrite Hl. reflexivity. }
  rewrite Hc. reflexivity.
Qed.

Lemma select_newest_irrelevant_witness :
  select_newest "@"
    ([ "ID 256 gen 12 top level 5 path @.20250101T0000" ]
       ++ "ID 300 gen 20 top level 5 path @home.20251231T2359"
       :: [ "ID 257 gen 14 top level 5 path @.20250831T0152" ])
  = select_newest "@"
      ([ "ID 256 gen 12 top level 5 path @.20250101T0000" ]
         ++ [ "ID 257 gen 14 top level 5 path @.20250831T0152" ]).
Proof.
  apply (select_newest_irrelevant "@").
  reflexivity.
Defined.

(** ** What an action may append and what it may raise *)

Lemma emits_nothing {A} (P : event -> Prop) (m : M A) :
  (forall w t, snd (m w t) = t) -> emits P m.
Proof.
  intros H w t. exists []. rewrite H, app_nil_r. split; [reflexivity|constructor].
Qed.

Lemma emits_ret {A} (P : event -> Prop) (a : A) : emits P (ret a).
Proof. apply emits_nothing. reflexivity. Qed.

Lemma emits_raise {A} (P : event -> Prop) (e : exn) : emits P (@raise A e).
Proof. apply emits_nothing. reflexivity. Qed.

Lemma emits_lift {A} (P : event -> Prop) (r : result A) : emits P (lift r).
Proof. apply emits_nothing. reflexivity. Qed.

Lemma emits_getpeername (P : event -> Prop) : emits P getpeername.
Proof. apply emits_nothing. reflexivity. Qed.

Lemma emits_emit (P : event -> Prop) (e : event) : P e -> emits P (emit e).
Proof. intros H w t. exists [e]. split; [reflexivity|]. repeat constructor. exact H. Qed.

Lemma emits_exec (P : event -> Prop) (line : string) :
  P (Exec line) -> emits P (exec_command line).
Proof.
  intros H w t. exists [Exec line]. split; [reflexivity|].
  repeat constructor. exact H.
Qed.

Lemma emits_run (P : event -> Prop) (cmd : command) (check : bool) :
  P (Run cmd) -> emits P (subprocess_run cmd check).
Proof.
  intros H w t. exists [Run cmd]. unfold subprocess_run. cbv zeta.
  split; [|repeat constructor; exact H].
  destruct (check && negb (returncode (run_result w t cmd) =? 0)); reflexivity.
Qed.

Lemma emits_bind {A B} (P : event -> Prop) (m : M A) (k : A -> M B) :
  emits P m -> (forall a, emits P (k a)) -> emits P (bind m k).
Proof.
  intros Hm Hk w t. unfold bind.
  destruct (Hm w t) as [s [Hs Hp]].
  destruct (m w t) as [[a|e] t']; simpl in Hs; subst t'.
  - destruct (Hk a w (t ++ s)%list) as [s' [Hs' Hp']].
    exists (s ++ s')%list. rewrite Hs', app_assoc.
    split; [reflexivity|]. apply Forall_app. split; assumption.
  - exists s. split; [reflexivity|assumption].
Qed.

Lemma emits_try_finally {A} (P : event -> Prop) (body : M A) (final : M unit) :
  emits P body -> emits P final -> emits P (try_finally body final).
Proof.
  intros Hb Hf w t. unfold try_finally.
  destruct (Hb w t) as [s [Hs Hp]].
  destruct (body w t) as [r t']. simpl in Hs. subst t'.
  destruct (Hf w (t ++ s)%list) as [s' [Hs' Hp']].
  destruct (final w (t ++ s)%list) as [[[]|e] t'];
    simpl in Hs'; subst t'; exists (s ++ s')%list; simpl;
    rewrite app_assoc; (split; [reflexivity|]);
    apply Forall_app; split; assumption.
Qed.

Lemma emits_try_except {A} (P : event -> Prop) (body : M A)
  (handler : exn -> M A) :
  emits P body -> (forall e, emits P (handler e)) ->
  emits P (try_except body handler).
Proof.
  intros Hb Hh w t. unfold try_except.
  destruct (Hb w t) as [s [Hs Hp]].
  destruct (body w t) as [[a|e] t']; simpl in Hs; subst t'.
  - exists s. split; [reflexivity|assumption].
  - destruct (is_Exception e).
    + destruct (Hh e w (t ++ s)%list) as [s' [Hs' Hp']].
      exists (s ++ s')%list. rewrite Hs', app_assoc.
      split; [reflexivity|]. apply Forall_app. split; assumption.
    + exists s. split; [reflexivity|assumption].
Qed.

Lemma emits_recv_loop (P : event -> Prop) (path : string)
  (pending : list string) :
  (forall pos data, P (Write path pos data)) ->
  forall pos, emits P (recv_loop path pending pos).
Proof.
  intros H. induction pending as [|data rest IH]; intros pos; simpl.
  - apply emits_ret.
  - destruct (Py.is_empty data); [apply emits_ret|].
    apply emits_bind; [apply emits_emit; apply H | intros _; apply IH].
Qed.

Lemma emits_truncate (P : event -> Prop) (path : string) (n : Z) :
  P (Truncate path n) -> emits P (truncate path n).
Proof.
  intros H. unfold truncate. destruct (n <? 0);
    [apply emits_raise | apply emits_emit; exact H].
Qed.

Lemma emits_connect (P : event -> Prop) (hostname : string) :
  P (Connect hostname) -> (forall s, P (Print s)) -> emits P (connect hostname).
Proof.
  intros Hc Hp. unfold connect. apply emits_bind; [apply emits_emit; exact Hc|].
  intros _ w t. destruct (connect_error w) as [msg|].
  - exact (emits_bind P _ _ (emits_emit P _ (Hp _))
             (fun _ => emits_raise P _) w t).
  - exact (emits_ret P tt w t).
Qed.

(** Goes through a script; [side] proves that an event is allowed. *)
Ltac emits_steps side :=
  repeat first
    [ apply emits_connect; [ side | intros; side ]
    | apply emits_bind; [ | intros ? ]
    | apply emits_try_finally
    | apply emits_try_except; [ | intros ? ]
    | apply emits_ret | apply emits_raise | apply emits_lift
    | apply emits_getpeername
    | apply emits_emit; side
    | apply emits_exec; side
    | apply emits_run; side
    | apply emits_truncate; side
    | apply emits_recv_loop; intros; side
    | match goal with
      | |- emits _ (match ?x with _ => _ end) => destruct x
      end ].

Lemma raises_ret {A} (Q : exn -> Prop) (a : A) : raises Q (ret a).
Proof. intros w t e. discriminate. Qed.

Lemma raises_raise {A} (Q : exn -> Prop) (e : exn) : Q e -> raises Q (@raise A e).
Proof. intros H w t e'. simpl. intros [= <-]. exact H. Qed.

Lemma raises_lift {A} (Q : exn -> Prop) (r : result A) :
  (forall e, r = Raise e -> Q e) -> raises Q (lift r).
Proof. intros H w t e. simpl. apply H. Qed.

Lemma raises_emit (Q : exn -> Prop) (e : event) : raises Q (emit e).
Proof. intros w t e'. discriminate. Qed.

Lemma raises_exec (Q : exn -> Prop) (line : string) :
  raises Q (exec_command line).
Proof. intros w t e'. discriminate. Qed.

Lemma raises_getpeername (Q : exn -> Prop) : raises Q getpeername.
Proof. intros w t e'. discriminate. Qed.

Lemma raises_run (Q : exn -> Prop) (cmd : command) (check : bool) :
  (forall rc, Q (CalledProcessError rc cmd)) ->
  raises Q (subprocess_run cmd check).
Proof.
  intros H w t e. unfold subprocess_run. cbv zeta.
  destruct (check && negb (returncode (run_result w t cmd) =? 0)); simpl.
  - intros [= <-]. apply H.
  - discriminate.
Qed.

Lemma raises_bind {A B} (Q : exn -> Prop) (m : M A) (k : A -> M B) :
  raises Q m -> (forall a, raises Q (k a)) -> raises Q (bind m k).
Proof.
  intros Hm Hk w t e. unfold bind.
  pose proof (Hm w t) as Hm'.
  destruct (m w t) as [[a|e'] t']; simpl in *.
  - apply Hk.
  - intros [= <-]. apply Hm'. reflexivity.
Qed.

Lemma raises_try_finally {A} (Q : exn -> Prop) (body : M A) (final : M unit) :
  raises Q body -> raises Q final -> raises Q (try_finally body final).
Proof.
  intros Hb Hf w t e. unfold try_finally.
  pose proof (Hb w t) as Hb'.
  destruct (body w t) as [r t'].
  pose proof (Hf w t') as Hf'.
  destruct (final w t') as [[[]|e'] t'']; simpl in *.
  - apply Hb'.
  - intros [= <-]. apply Hf'. reflexivity.
Qed.

Lemma raises_try_except {A} (Q Q' : exn -> Prop) (body : M A)
  (handler : exn -> M A) :
  raises Q' body ->
  (forall e, raises Q (handler e)) ->
  (forall e, Q' e -> is_Exception e = false -> Q e) ->
  raises Q (try_except body handler).
Proof.
  intros Hb Hh Hq w t e. unfold try_except.
  pose proof (Hb w t) as Hb'.
  destruct (body w t) as [[a|e'] t']; simpl in *; [discriminate|].
  destruct (is_Exception e') eqn:E.
  - apply Hh.
  - simpl. intros [= <-]. apply Hq; [apply Hb'; reflexivity | assumption].
Qed.

Lemma raises_recv_loop (Q : exn -> Prop) (path : string)
  (pending : list string) :
  forall pos, raises Q (recv_loop path pending pos).
Proof.
  induction pending as [|data rest IH]; intros pos; simpl.
  - apply raises_ret.
  - destruct (Py.is_empty data); [apply raises_ret|].
    apply raises_bind; [apply raises_emit | intros _; apply IH].
Qed.

Lemma parse_parted_output_raises (output : string) (e : exn) :
  parse_parted_output output = Raise e -> is_Exception e = true.
Proof.
  unfold parse_parted_output. cbv zeta.
  destruct (_ <? 3)%nat; [intros [= <-]; reflexivity|].
  destruct (nth_error _ 1); [|intros [= <-]; reflexivity].
  destruct (parse_lines _ []) as [ps|e'] eqn:Hp; [discriminate|].
  destruct (parse_lines_raises _ _ _ Hp) as [x ->].
  intros [= <-]. reflexivity.
Qed.

Lemma to_int_raises (s : string) (e : exn) :
  to_int s = Raise e -> is_Exception e = true.
Proof.
  unfold to_int. destruct (Py.int s); [discriminate|].
  intros [= <-]. reflexivity.
Qed.

Lemma get_btrfs_partition_offset_raises (partitions : list partition)
  (e : exn) :
  get_btrfs_partition_offset partitions = Raise e -> is_Exception e = true.
Proof.
  unfold get_btrfs_partition_offset.
  destruct (first_btrfs partitions); [apply to_int_raises|].
  intros [= <-]. reflexivity.
Qed.

Lemma select_newest_raises (subvolume : string) (lines : list string)
  (e : exn) :
  select_newest subvolume lines = Raise e -> is_Exception e = true.
Proof.
  unfold select_newest. cbv zeta.
  destruct (falsy _); [intros [= <-]; reflexivity|].
  destruct (fold_left _ _ _); [discriminate|].
  intros [= <-]. reflexivity.
Qed.

(** Goes through a script whose exceptions are all caught by
    [except Exception]. *)
Ltac exceptions_only :=
  repeat first
    [ apply raises_bind; [ | intros ? ]
    | apply raises_try_finally
    | apply raises_ret | apply raises_emit | apply raises_exec
    | apply raises_getpeername | apply raises_recv_loop
    | apply raises_raise; reflexivity
    | apply raises_run; intros; reflexivity
    | apply raises_lift; first
        [ apply parse_parted_output_raises
        | apply to_int_raises
        | apply get_btrfs_partition_offset_raises
        | apply select_newest_raises ]
    | match goal with
      | |- raises _ (match ?x with _ => _ end) => destruct x
      end ].

Lemma create_initial_image_raises (device output_file : string) :
  raises (fun e => is_Exception e = true)
    (create_initial_image device output_file).
Proof.
  unfold create_initial_image, get_partitions_ssh, truncate, make_filesystem.
  exceptions_only.
Qed.

Lemma run_backup_raises (device output_file subvolume : string) :
  raises (fun e => is_Exception e = true)
    (run_backup device output_file subvolume).
Proof.
  unfold run_backup, run_backup_setup, run_backup_try, run_backup_finally,
    get_partitions_local.
  exceptions_only.
Qed.

(** ** More on the entry point *)

(** X17: when the connection cannot be established, [main] prints the
    reason and exits with status 1; no command is run, neither locally
    nor on the remote host. *)
Theorem main_connection_failed (hostname device output : string) (w : world)
  (t : trace) (msg : string) :
  connect_error w = Some msg ->
  main hostname device output w t
  = (Raise (SystemExit 1),
     (t ++ [Connect hostname; Print ("SSH connection failed: " ++ msg)])%list).
Proof.
  intros H. unfold main. unfold bind at 1. unfold connect.
  rewrite bind_emit. cbv beta. rewrite H. rewrite bind_emit.
  unfold raise. rewrite <- app_assoc. reflexivity.
Qed.

Lemma main_connection_failed_witness :
  main "backup-host" Sample.device Sample.image More.unreachable []
  = (Raise (SystemExit 1),
     [ Connect "backup-host";
       Print "SSH connection failed: Authentication failed." ]).
Proof.
  apply (main_connection_failed "backup-host" Sample.device Sample.image
           More.unreachable [] "Authentication failed.").
  reflexivity.
Defined.

Lemma raises_weaken {A} (Q Q' : exn -> Prop) (m : M A) :
  raises Q m -> (forall e, Q e -> Q' e) -> raises Q' m.
Proof. intros H Hq w t e He. apply Hq. eapply H. eassumption. Qed.

Lemma check_or_create_raises (device output : string) :
  raises exit_1_or_exception (check_or_create device output).
Proof.
  unfold check_or_create.
  apply raises_bind; [apply raises_run; intros; right; reflexivity|].
  intros r. destruct (negb (returncode r =? 0)).
  - apply raises_bind; [apply raises_emit|]. intros _.
    eapply raises_weaken; [apply create_initial_image_raises|].
    intros e He. right. exact He.
  - apply raises_bind;
      [apply raises_lift; intros e He; right; eapply to_int_raises; eassumption|].
    intros local_size.
    apply raises_bind.
    { unfold get_partitions_ssh.
      apply raises_bind; [apply raises_exec|]. intros ch.
      apply raises_lift. intros e He. right.
      eapply parse_parted_output_raises. eassumption. }
    intros [remote_size ps].
    apply raises_bind;
      [apply raises_lift; intros e He; right; eapply to_int_raises; eassumption|].
    intros remote.
    destruct (negb (local_size =? remote)); [|apply raises_ret].
    apply raises_bind; [apply raises_emit|]. intros _.
    apply raises_raise. left. reflexivity.
Qed.

Lemma check_or_create_existing_emits (device output : string) (w : world)
  (t : trace) :
  returncode (run_result w t (stat_command output)) = 0 ->
  exists s, snd (check_or_create device output w t) = (t ++ s)%list
            /\ Forall (preflight_event device output) s.
Proof.
  intros Hrc. unfold check_or_create. rewrite bind_run, Hrc.
  change (negb (0 =? 0)) with false. cbv iota.
  match goal with
  | |- context [ snd (?X w ?t') ] =>
      assert (Hx : emits (preflight_event device output) X)
  end.
  { unfold get_partitions_ssh. emits_steps ltac:(simpl; auto). }
  match goal with
  | |- context [ snd (?X w ?t') ] => destruct (Hx w t') as [s [Hs Hp]]
  end.
  exists (Run (stat_command output) :: s).
  rewrite Hs, <- app_assoc. split; [reflexivity|].
  constructor; [reflexivity | assumption].
Qed.

(** The handler of [main]: print, then exit with status 1. *)
Lemma main_after_check (hostname device output : string) (w : world)
  (t : trace) :
  connect_error w = None ->
  let t0 := (t ++ [Connect hostname])%list in
  main hostname device output w t
  = match check_or_create device output w t0 with
    | (Return _, t1) => (run_backup device output "@" ;;; emit Close) w t1
    | (Raise e, t1) =>
        if is_Exception e
        then (Raise (SystemExit 1),
              (t1 ++ [Print ("Error checking or creating output file: "
                               ++ exn_str e)])%list)
        else (Raise e, t1)
    end.
Proof.
  cbv zeta. intros Hc. unfold main. unfold bind at 1.
  rewrite (connect_ok _ _ _ Hc). unfold bind at 1. unfold try_except.
  destruct (check_or_create device output w _) as [[[]|e] t1]; [reflexivity|].
  destruct (is_Exception e); reflexivity.
Qed.

(** X18: when the output file exists, every failure of the pre-flight
    check (a length that is no number, a remote listing that cannot be
    parsed, a disk size that is no number, different sizes) ends [main]
    with exit status 1 after nothing but the [stat], the remote listing
    and messages: no file is written and nothing is mounted. *)
Theorem main_preflight_failure (hostname device output : string) (w : world)
  (t : trace) (e : exn) :
  let t0 := (t ++ [Connect hostname])%list in
  connect_error w = None ->
  returncode (run_result w t0 (stat_command output)) = 0 ->
  fst (check_or_create device output w t0) = Raise e ->
  exists s,
    main hostname device output w t = (Raise (SystemExit 1), (t0 ++ s)%list)
    /\ Forall (preflight_event device output) s.
Proof.
  cbv zeta. intros Hc Hrc He.
  rewrite (main_after_check hostname device output w t Hc). cbv zeta.
  destruct (check_or_create_existing_emits device output w _ Hrc)
    as [s [Hs Hp]].
  pose proof (check_or_create_raises device output w _ e He) as Hq.
  destruct (check_or_create device output w _) as [r t1].
  simpl in He, Hs. subst r t1.
  destruct Hq as [->|Hq].
  - exists s. split; [reflexivity | assumption].
  - rewrite Hq.
    exists (s ++ [Print ("Error checking or creating output file: "
                           ++ exn_str e)])%list.
    rewrite app_assoc. split; [reflexivity|].
    apply Forall_app. split; [assumption|]. repeat constructor.
Qed.

Lemma main_preflight_failure_witness :
  exists s,
    main "backup-host" Sample.device Sample.image
      (Sample.scripted Sample.healthy_local []) []
    = (Raise (SystemExit 1), (([] ++ [Connect "backup-host"]) ++ s)%list)
    /\ Forall (preflight_event Sample.device Sample.image) s.
Proof.
  apply (main_preflight_failure "backup-host" Sample.device Sample.image
           (Sample.scripted Sample.healthy_local []) []
           invalid_parted_output).
  - reflexivity.
  - reflexivity.
  - vm_compute. reflexivity.
Defined.

(** X19: when the output file does not exist and the initializer fails,
    [main] prints the error and exits with status 1; the backup is not
    started. *)
Theorem main_initializer_failure (hostname device output : string)
  (w : world) (t t3 : trace) (e : exn) :
  let t1 := (t ++ [Connect hostname])%list in
  let t2 := (t1 ++ [ Run (stat_command output);
                     Print "Creating initial image..." ])%list in
  connect_error w = None ->
  returncode (run_result w t1 (stat_command output)) <> 0 ->
  create_initial_image device output w t2 = (Raise e, t3) ->
  main hostname device output w t
  = (Raise (SystemExit 1),
     (t3 ++ [Print ("Error checking or creating output file: "
                      ++ exn_str e)])%list).
Proof.
  cbv zeta. intros Hc Hrc Hinit.
  rewrite (main_after_check hostname device output w t Hc). cbv zeta.
  unfold check_or_create. rewrite bind_run.
  apply Z.eqb_neq in Hrc. rewrite Hrc.
  change (negb false) with true. cbv iota.
  rewrite bind_emit.
  replace (((t ++ [Connect hostname]) ++ [Run (stat_command output)])
             ++ [Print "Creating initial image..."])%list
    with ((t ++ [Connect hostname])
            ++ [Run (stat_command output); Print "Creating initial image..."])%list
    by (rewrite <- !app_assoc; reflexivity).
  rewrite Hinit.
  pose proof (create_initial_image_raises device output w _ e
                ltac:(rewrite Hinit; reflexivity)) as Hex.
  simpl in Hex. rewrite Hex. reflexivity.
Qed.

Lemma main_initializer_failure_witness :
  main "backup-host" Sample.device Sample.image More.no_btrfs []
  = (Raise (SystemExit 1),
     [ Connect "backup-host";
       Run (stat_command Sample.image);
       Print "Creating initial image...";
       Exec (parted_line Sample.device);
       Exec (blkid_line Sample.device);
       Exec (remount_line Sample.device);
       Create Sample.image;
       Truncate Sample.image 10485760;
       Print "Error checking or creating output file: No btrfs partition found on the device." ]).
Proof.
  apply (main_initializer_failure "backup-host" Sample.device Sample.image
           More.no_btrfs []
           [ Connect "backup-host";
             Run (stat_command Sample.image);
             Print "Creating initial image...";
             Exec (parted_line Sample.device);
             Exec (blkid_line Sample.device);
             Exec (remount_line Sample.device);
             Create Sample.image;
             Truncate Sample.image 10485760 ]
           no_btrfs_found).
  - reflexivity.
  - vm_compute. discriminate.
  - vm_compute. reflexivity.
Defined.

(** X20: when the output file does not exist and the initializer
    succeeds, [main] goes on with the backup from there, in the same run,
    and closes the connection after it. *)
Theorem main_initializer_success (hostname device output : string)
  (w : world) (t t3 : trace) :
  let t1 := (t ++ [Connect hostname])%list in
  let t2 := (t1 ++ [ Run (stat_command output);
                     Print "Creating initial image..." ])%list in
  connect_error w = None ->
  returncode (run_result w t1 (stat_command output)) <> 0 ->
  create_initial_image device output w t2 = (Return tt, t3) ->
  main hostname device output w t
  = (run_backup device output "@" ;;; emit Close) w t3.
Proof.
  cbv zeta. intros Hc Hrc Hinit.
  rewrite (main_after_check hostname device output w t Hc). cbv zeta.
  unfold check_or_create. rewrite bind_run.
  apply Z.eqb_neq in Hrc. rewrite Hrc.
  change (negb false) with true. cbv iota.
  rewrite bind_emit.
  replace (((t ++ [Connect hostname]) ++ [Run (stat_command output)])
             ++ [Print "Creating initial image..."])%list
    with ((t ++ [Connect hostname])
            ++ [Run (stat_command output); Print "Creating initial image..."])%list
    by (rewrite <- !app_assoc; reflexivity).
  rewrite Hinit. reflexivity.
Qed.

Lemma main_initializer_success_witness :
  main "backup-host" Sample.device Sample.image More.fresh_healthy []
  = (run_backup Sample.device Sample.image "@" ;;; emit Close)
      More.fresh_healthy
      [ Connect "backup-host";
        Run (stat_command Sample.image);
        Print "Creating initial image...";
        Exec (parted_line Sample.device);
        Exec (blkid_line Sample.device);
        Exec (remount_line Sample.device);
        Create Sample.image;
        Truncate Sample.image 10485760;
        Exec (copy_command Sample.device 1048576);
        Run (losetup_bind Sample.image);
        Run (mkfs_btrfs "6f1c2a9e-5d3b-4c8e-9a47-0b1d2e3f4a5b");
        Run losetup_detach ].
Proof.
  apply (main_initializer_success "backup-host" Sample.device Sample.image
           More.fresh_healthy []).
  - reflexivity.
  - vm_compute. discriminate.
  - vm_compute. reflexivity.
Defined.

Lemma main_raises (hostname device output : string) :
  raises exit_1_or_exception (main hostname device output).
Proof.
  unfold main.
  apply raises_bind.
  { unfold connect. apply raises_bind; [apply raises_emit|]. intros _ w t e.
    destruct (connect_error w) as [msg|]; [|discriminate].
    unfold bind, emit, raise. simpl. intros [= <-]. left. reflexivity. }
  intros _. apply raises_bind.
  { eapply raises_try_except.
    - apply check_or_create_raises.
    - intros e. apply raises_bind; [apply raises_emit|]. intros _.
      apply raises_raise. left. reflexivity.
    - intros e [->|He] Hn; [left; reflexivity | congruence]. }
  intros _. apply raises_bind; [|intros _; apply raises_emit].
  eapply raises_weaken; [apply run_backup_raises|].
  intros e He. right. exact He.
Qed.

(** X21: once the arguments are parsed and the connection is
    established, [main] never exits with a status other than 1: whatever
    leaves it is [SystemExit(1)] or an exception that [except Exception]
    would catch, and such an exception can only come from the backup
    itself. *)
Theorem main_exit_status (hostname device output : string) (w : world)
  (t : trace) (e : exn) :
  connect_error w = None ->
  fst (main hostname device output w t) = Raise e ->
  e = SystemExit 1
  \/ (is_Exception e = true
      /\ exists t', fst (run_backup device output "@" w t') = Raise e).
Proof.
  intros Hconn H.
  destruct (main_raises hostname device output w t e H) as [->|He];
    [left; reflexivity|].
  right. split; [assumption|]. revert H.
  unfold main. unfold bind at 1.
  rewrite (connect_ok hostname w t Hconn).
  unfold bind at 1. unfold try_except.
  pose proof (check_or_create_raises device output w
                (t ++ [Connect hostname])%list) as Hq.
  destruct (check_or_create device output w _) as [[[]|e2] t2].
  - unfold bind at 1.
    destruct (run_backup device output "@" w t2) as [[[]|e3] t3] eqn:Er.
    + discriminate.
    + simpl. intros [= <-]. exists t2. rewrite Er. reflexivity.
  - destruct (is_Exception e2) eqn:E2.
    + unfold bind, emit, raise. simpl. intros [= <-]. discriminate.
    + simpl. intros [= <-]. congruence.
Qed.

Lemma main_exit_status_witness :
  SystemExit 1 = SystemExit 1
  \/ (is_Exception (SystemExit 1) = true
      /\ exists t',
           fst (run_backup Sample.device Sample.image "@" Sample.mismatched t')
           = Raise (SystemExit 1)).
Proof.
  apply (main_exit_status "backup-host" Sample.device Sample.image
           Sample.mismatched []).
  - reflexivity.
  - vm_compute. reflexivity.
Defined.

Lemma main_emits_no_close_before (hostname device output : string) :
  emits (fun e => e <> Close) (connect hostname)
  /\ emits (fun e => e <> Close)
       (try_except (check_or_create device output)
          (fun e =>
             emit (Print ("Error checking or creating output file: "
                            ++ exn_str e)) ;;;
             raise (SystemExit 1)))
  /\ emits (fun e => e <> Close) (run_backup device output "@").
Proof.
  split; [|split].
  - emits_steps ltac:(simpl; discriminate).
  - unfold check_or_create, create_initial_image, get_partitions_ssh,
      make_filesystem.
    emits_steps ltac:(simpl; discriminate).
  - unfold run_backup, run_backup_setup, run_backup_try, run_backup_finally,
      get_partitions_local.
    emits_steps ltac:(simpl; discriminate).
Qed.

Lemma not_in_forall (s : trace) :
  Forall (fun e => e <> Close) s -> ~ In Close s.
Proof.
  intros H Hin. rewrite Forall_forall in H. apply (H Close Hin). reflexivity.
Qed.

(** X22: the connection is closed exactly when [main] returns normally,
    and then as its very last step; when [main] ends with an exit or an
    exception, [ssh.close()] has not been called. *)
Theorem main_closes_on_success (hostname device output : string) (w : world)
  (t : trace) :
  exists s,
    snd (main hostname device output w t) = (t ++ s)%list
    /\ match fst (main hostname device output w t) with
       | Return _ => exists s', s = (s' ++ [Close])%list /\ ~ In Close s'
       | Raise _ => ~ In Close s
       end.
Proof.
  destruct (main_emits_no_close_before hostname device output)
    as [Hc [Hx Hb]].
  destruct (main hostname device output w t) as [r tr] eqn:E.
  simpl. revert E.
  unfold main. unfold bind at 1.
  destruct (Hc w t) as [s1 [Hs1 Hp1]].
  destruct (connect hostname w t) as [[[]|e1] t1]; simpl in Hs1; subst t1.
  - unfold bind at 1.
    destruct (Hx w (t ++ s1)%list) as [s2 [Hs2 Hp2]].
    destruct (try_except _ _ w (t ++ s1)%list) as [[[]|e2] t2];
      simpl in Hs2; subst t2.
    + unfold bind at 1.
      destruct (Hb w ((t ++ s1) ++ s2)%list) as [s3 [Hs3 Hp3]].
      destruct (run_backup device output "@" w _) as [[[]|e3] t3];
        simpl in Hs3; subst t3.
      * unfold emit. intros [= <- <-].
        exists (((s1 ++ s2) ++ s3) ++ [Close])%list.
        split; [rewrite <- !app_assoc; reflexivity|].
        exists ((s1 ++ s2) ++ s3)%list. split; [reflexivity|].
        apply not_in_forall. repeat (apply Forall_app; split); assumption.
      * intros [= <- <-]. exists ((s1 ++ s2) ++ s3)%list.
        split; [rewrite <- !app_assoc; reflexivity|].
        apply not_in_forall. repeat (apply Forall_app; split); assumption.
    + intros [= <- <-]. exists (s1 ++ s2)%list.
      split; [rewrite <- !app_assoc; reflexivity|].
      apply not_in_forall. apply Forall_app; split; assumption.
  - intros [= <- <-]. exists s1. split; [reflexivity|].
    apply not_in_forall. assumption.
Qed.

(* ================================================================= *)
(** ** An existing image at a path with a blank *)

(** C7: the output file [my disk.img] exists and has the length of the
    remote disk, yet [main] does not skip the initializer.  The shell cuts
    the unquoted line [stat -c %s my disk.img] into the two names [my] and
    [disk.img], [stat] exits with 1, and [main] announces a new image and
    runs [create_initial_image], which opens the existing file for writing
    and so empties it. *)
Theorem main_overwrites_image_at_blank_path :
  file_length More.blank_files More.blank_image = Some 10485760
  /\ (exists partitions,
        parse_parted_output
          (read_stdout
             (exec_result More.blank_path []
                (parted_line Sample.device)))
        = Return ("10485760", partitions))
  /\ stat_command More.blank_image = Shell "stat -c %s my disk.img"
  /\ returncode
       (run_result More.blank_path [Connect "backup-host"]
          (stat_command More.blank_image)) = 1
  /\ exists rest,
       snd (main "backup-host" Sample.device More.blank_image
              More.blank_path [])
       = ([ Connect "backup-host";
            Run (stat_command More.blank_image);
            Print "Creating initial image...";
            Exec (parted_line Sample.device);
            Exec (blkid_line Sample.device);
            Exec (remount_line Sample.device);
            Create More.blank_image;
            Truncate More.blank_image 10485760 ] ++ rest)%list.
Proof.
  split; [reflexivity|].
  split; [eexists; vm_compute; reflexivity|].
  split; [reflexivity|].
  split; [vm_compute; reflexivity|].
  eexists. vm_compute. reflexivity.
Qed.

(* ================================================================= *)
(** ** The UUID and the raw copy *)

Lemma first_btrfs_app (pre post : list partition) (b : partition) :
  Forall (fun q => fs_type q <> "btrfs") pre ->
  fs_type b = "btrfs" ->
  first_btrfs (pre ++ b :: post) = Some b.
Proof.
  intros Hpre Hb. induction Hpre as [|q pre Hq Hpre IH]; simpl.
  - rewrite Hb. reflexivity.
  - apply String.eqb_neq in Hq. rewrite Hq. exact IH.
Qed.

(** C9: whatever the probed partitions are, the initializer asks [blkid]
    for the UUID of the device path of partition number 2 and gives that
    UUID to [mkfs.btrfs], while the block count of the raw copy is the
    start of the first partition, in listing order, whose filesystem type
    is exactly [btrfs], divided by 1024.  The two are the same partition
    device only when that partition has number 2. *)
Theorem uuid_partition_and_copy_offset (device output_file : string)
  (w : world) (t : trace) (disk_size : string) (pre post : list partition)
  (b : partition) (length offset : Z) :
  let blkid := "blkid -o value -s UUID " ++ get_partition_device device "2" in
  let dd := "dd if=" ++ device ++ " bs=1K count=" ++ Py.str (offset / 1024) in
  let t1 := (t ++ [Exec (parted_line device)])%list in
  let uuid := Py.strip (read_stdout (exec_result w t1 blkid)) in
  parse_parted_output (read_stdout (exec_result w t (parted_line device)))
  = Return (disk_size, (pre ++ b :: post)%list) ->
  Forall (fun q => fs_type q <> "btrfs") pre ->
  fs_type b = "btrfs" ->
  Py.int (start b) = Some offset ->
  uuid <> EmptyString ->
  Py.int disk_size = Some length ->
  0 <= length ->
  (exists writes last,
      snd (create_initial_image device output_file w t)
      = (t ++ [ Exec (parted_line device); Exec blkid;
                Exec (remount_line device); Create output_file;
                Truncate output_file length; Exec dd ]
           ++ writes ++ last)%list
      /\ Forall (is_write output_file) writes
      /\ (last = [ Run (losetup_bind output_file) ]
          \/ last = [ Run (losetup_bind output_file); Run (mkfs_btrfs uuid) ]
          \/ last = [ Run (losetup_bind output_file); Run (mkfs_btrfs uuid);
                      Run losetup_detach ]))
  /\ (get_partition_device device (part_num b)
      = get_partition_device device "2"
      <-> part_num b = "2").
Proof.
  cbv zeta. intros Hprobe Hpre Hb Hoff Hu Hn Hpos.
  split; [|split; [apply get_partition_device_inj | intros ->; reflexivity]].
  assert (Hfirst : get_btrfs_partition_offset (pre ++ b :: post)
                   = Return offset).
  { unfold get_btrfs_partition_offset.
    rewrite (first_btrfs_app pre post b Hpre Hb).
    unfold to_int. rewrite Hoff. reflexivity. }
  destruct (pre ++ b :: post)%list as [|p ps] eqn:Eparts;
    [destruct pre; discriminate|].
  rewrite (create_initial_image_until_create device output_file w t
             disk_size p ps Hprobe Hu).
  rewrite bind_lift. unfold to_int. rewrite Hn.
  unfold truncate. apply Z.ltb_ge in Hpos. rewrite Hpos.
  rewrite bind_emit, bind_lift, Hfirst, bind_exec.
  unfold bind at 1.
  match goal with
  | |- context [ recv_loop output_file ?c 0 w ?t0 ] =>
      destruct (recv_loop_events output_file c 0 w t0)
        as [ws [Hr [_ [_ Hf]]]]
  end.
  rewrite Hr. rewrite make_filesystem_outcome. cbv zeta.
  exists ws.
  destruct (negb _).
  { eexists. split; [simpl; rewrite <- !app_assoc; reflexivity|].
    split; [assumption|]. left. reflexivity. }
  destruct (negb _).
  { eexists. split; [simpl; rewrite <- !app_assoc; reflexivity|].
    split; [assumption|]. right. left. reflexivity. }
  destruct (negb _).
  - eexists. split; [simpl; rewrite <- !app_assoc; reflexivity|].
    split; [assumption|]. right. right. reflexivity.
  - eexists. split; [simpl; rewrite <- !app_assoc; reflexivity|].
    split; [assumption|]. right. right. reflexivity.
Qed.

Lemma uuid_partition_and_copy_offset_witness :
  (exists writes last,
      snd (create_initial_image Sample.device Sample.image
             More.btrfs_third [])
      = ([] ++ [ Exec (parted_line Sample.device);
                 Exec "blkid -o value -s UUID /dev/sda2";
                 Exec (remount_line Sample.device); Create Sample.image;
                 Truncate Sample.image 10485760;
                 Exec "dd if=/dev/sda bs=1K count=5120" ]
            ++ writes ++ last)%list
      /\ Forall (is_write Sample.image) writes
      /\ (last = [ Run (losetup_bind Sample.image) ]
          \/ last = [ Run (losetup_bind Sample.image);
                      Run (mkfs_btrfs "0d0c0b0a-1111-4222-8333-444455556666") ]
          \/ last = [ Run (losetup_bind Sample.image);
                      Run (mkfs_btrfs "0d0c0b0a-1111-4222-8333-444455556666");
                      Run losetup_detach ]))
  /\ (get_partition_device Sample.device "3"
      = get_partition_device Sample.device "2"
      <-> "3" = "2").
Proof.
  apply (uuid_partition_and_copy_offset Sample.device Sample.image
           More.btrfs_third [] "10485760"
           [ Partition "1" "1048575" "0" "fat32";
             Partition "2" "4194303" "1048576" "ext4" ]
           []
           (Partition "3" "5242879" "5242880" "btrfs")
           10485760 5242880).
  - vm_compute. reflexivity.
  - repeat constructor; simpl; discriminate.
  - reflexivity.
  - vm_compute. reflexivity.
  - vm_compute. discriminate.
  - vm_compute. reflexivity.
  - lia.
Defined.
